(** * CoinMarketCap notebook: a shallow embedding of [CoinMarketCap.ipynb]

    The notebook is a sequence of code cells.  Section I is the ingestion
    pipeline (fetch, flatten, save CSV, upload, warehouse load, log upload,
    cleanup); section II holds five SQL queries.  Cells are modelled as
    state transformers over the notebook's variables and the part of the
    outside world they touch (local files, the storage bucket, the warehouse
    table); the queries are modelled as functions over table rows.

    Conventions.
    - A run executes the cells of section I once, top to bottom, in a fresh
      kernel.  An uncaught exception ends the run at the cell that raises
      it.  [exit] is the kernel's: [exit(1)] asks the front end to close and
      to keep the kernel; it raises nothing, and the cells go on.
    - What the notebook cannot decide is given from outside: the outcome of
      the GET and of the two [gsutil cp] commands and the shell's view of
      variables ([Env]), and what the local disk, the bucket and the
      warehouse hold before the run ([World]).
    - The libraries the notebook calls ([logging], pandas, [google.datalab])
      are modelled by what they do with the values the notebook hands them.
      Text rendering and time are left out: a log record is its level, its
      format string and its arguments, and a CSV file is its lines of
      cells. *)

From Stdlib Require Import ZArith Floats Ascii String.
From stdpp Require Import gmap strings list fin_maps sorting.

Open Scope string_scope.
Open Scope list_scope.

(* ===================================================================== *)
(** ** Python strings: [strip] and [replace] *)
(* ===================================================================== *)

Module PyStr.

(** A character is a code point below 256.  [isspace] is Python's
    [str.isspace] on that range: TAB..CR, FS..US, SPACE, NEL and NBSP. *)
Definition isspace (c : ascii) : bool :=
  let n := nat_of_ascii c in
  ((9 <=? n)%nat && (n <=? 13)%nat) || ((28 <=? n)%nat && (n <=? 32)%nat)
  || (n =? 133)%nat || (n =? 160)%nat.

(** [s.lstrip()] *)
Fixpoint lstrip (s : string) : string :=
  match s with
  | EmptyString => EmptyString
  | String c s' => if isspace c then lstrip s' else s
  end.

(** [s.rstrip()] *)
Fixpoint rstrip (s : string) : string :=
  match s with
  | EmptyString => EmptyString
  | String c s' =>
      match rstrip s' with
      | EmptyString => if isspace c then EmptyString else String c EmptyString
      | r => String c r
      end
  end.

(** [s.strip()] *)
Definition strip (s : string) : string := rstrip (lstrip s).

(** [s.replace(old, new)] for one-character [old] and [new]. *)
Fixpoint replace (old new : ascii) (s : string) : string :=
  match s with
  | EmptyString => EmptyString
  | String c s' =>
      String (if Ascii.eqb c old then new else c) (replace old new s')
  end.

(** [c in s] for a character [c]. *)
Fixpoint contains (c : ascii) (s : string) : bool :=
  match s with
  | EmptyString => false
  | String c' s' => Ascii.eqb c' c || contains c s'
  end.

End PyStr.

(** Cell 6: [x.strip().replace('.', '_')], the expression applied to every
    column name. *)
Definition sanitize (x : string) : string :=
  PyStr.replace "." "_" (PyStr.strip x).

(* ===================================================================== *)
(** ** Python values and exceptions *)
(* ===================================================================== *)

(** What [json.loads] produces: [None], [bool], [int], [float], [str],
    [list] and [dict].  A [dict] is its list of items; a key that occurs more
    than once stands for successive assignments, so the last one wins. *)
#[warnings="-register-all"]
Inductive json : Type :=
| JNull
| JBool (b : bool)
| JInt (n : Z)
| JFloat (x : float)
| JStr (s : string)
| JArr (items : list json)
| JObj (fields : list (string * json)).

(** The exceptions that can leave a cell uncaught. *)
Inductive exn : Type :=
| AttributeError    (* [None.status_code] *)
| NameError         (* a variable read before anything bound it *)
| KeyError          (* [d[k]] with [k] missing *)
| TypeError         (* [v[k]] on a value that is not a dict *)
| ValueError        (* [json.loads] on text that is not JSON *)
| BigQueryError     (* a table that cannot be created *)
| PandasError.      (* [json_normalize] on data that is not a list of records *)

Inductive result (A : Type) : Type :=
| Ok (a : A)
| Err (e : exn).
Arguments Ok {A} a.
Arguments Err {A} e.

Definition is_dict (v : json) : bool :=
  match v with JObj _ => true | _ => false end.

(** [d.get(k)] on an item list, the last assignment winning. *)
Fixpoint dict_get (d : list (string * json)) (k : string) : option json :=
  match d with
  | [] => None
  | (k', v) :: tl =>
      match dict_get tl k with
      | Some x => Some x
      | None => if String.eqb k' k then Some v else None
      end
  end.

(** [v[k]] for a string key [k]. *)
Definition getitem (v : json) (k : string) : result json :=
  match v with
  | JObj d => match dict_get d k with Some x => Ok x | None => Err KeyError end
  | _ => Err TypeError
  end.

(* ===================================================================== *)
(** ** Cell 6, the flattener: [json_normalize], renaming, [fillna] *)
(* ===================================================================== *)

(** A frame is its column names and its rows, a row holding one cell per
    column.  pandas orders the columns by name; here they are kept in order
    of first appearance, and a position only pairs a header with its cells.
    No theorem below depends on the order of the columns; an example that
    names a position names it in the order kept here. *)
Record DataFrame : Type := {
  df_columns : list string;
  df_rows : list (list json)
}.

(** pandas marks a missing cell with the float NaN. *)
Definition NaN : json := JFloat PrimFloat.nan.

(** [nested_to_record] below the top level: the value [v] stored under the
    joined key [key].  Only dicts are flattened further; every other value
    (lists included) is a leaf. *)
Fixpoint flatten_value (key : string) (v : json) : list (string * json) :=
  match v with
  | JObj d =>
      (fix go (l : list (string * json)) : list (string * json) :=
         match l with
         | [] => []
         | (k, v') :: tl => flatten_value (key +:+ "." +:+ k) v' ++ go tl
         end) d
  | _ => [(key, v)]
  end.

(** [nested_to_record(d)] with the default separator ['.'].  At the top
    level a value that is not a dict stays as it is and the flattened dicts
    are assigned after it: where a dotted key meets the path of a nested
    value, the nested value is the one kept. *)
Definition nested_to_record (d : list (string * json)) : list (string * json) :=
  List.filter (fun kv => negb (is_dict kv.2)) d
  ++ flat_map (fun kv => if is_dict kv.2 then flatten_value kv.1 kv.2 else []) d.

(** Keys in order of first appearance. *)
Definition add_key (acc : list string) (k : string) : list string :=
  if bool_decide (k ∈ acc) then acc else acc ++ [k].

Definition column_universe (records : list (list (string * json))) : list string :=
  fold_left add_key (flat_map (fun r => map fst r) records) [].

(** The records as an array of objects: one row per record, one column per
    key of any record, NaN where a record has no such key. *)
Definition make_row (cols : list string) (r : list (string * json)) : list json :=
  map (fun c => match dict_get r c with Some v => v | None => NaN end) cols.

Definition column_values (df : DataFrame) (j : nat) : list json :=
  flat_map (fun row => match row !! j with Some v => [v] | None => [] end) (df_rows df).

(** The float nearest to an integer. *)
Definition float_of_int (n : Z) : float :=
  SF2Prim (binary_normalize prec emax n 0 false).

Definition is_number (v : json) : bool :=
  match v with JInt _ | JFloat _ => true | _ => false end.

(** pandas makes one array of each column of objects.  A column of integers,
    floats and gaps ([None], or NaN for a missing key) that has a number and
    has a float or a gap becomes a float64 array: its integers are converted
    and its [None]s become NaN.  Every other column keeps its values, as an
    int64 or bool array or as an array of objects. *)
Definition numeric_or_na (v : json) : bool :=
  match v with
  | JInt n => (- 2 ^ 63 <=? n)%Z && (n <? 2 ^ 64)%Z
  | JFloat _ | JNull => true
  | _ => false
  end.

Definition float_or_na (v : json) : bool :=
  match v with JFloat _ | JNull => true | _ => false end.

Definition is_float_column (col : list json) : bool :=
  forallb numeric_or_na col && existsb float_or_na col && existsb is_number col.

Definition to_float (v : json) : json :=
  match v with
  | JInt n => JFloat (float_of_int n)
  | JNull => NaN
  | _ => v
  end.

Definition convert_object_array (df : DataFrame) : DataFrame :=
  {| df_columns := df_columns df;
     df_rows :=
       map (imap (fun j v => if is_float_column (column_values df j)
                             then to_float v else v))
         (df_rows df) |}.

(** [DataFrame(records)] *)
Definition DataFrame_of_records (records : list (list (string * json))) : DataFrame :=
  let cols := column_universe records in
  convert_object_array {| df_columns := cols; df_rows := map (make_row cols) records |}.

(** The records of a list of JSON values, when every one is a dict. *)
Fixpoint as_records (items : list json) : option (list (list (string * json))) :=
  match items with
  | [] => Some []
  | JObj d :: tl => option_map (cons d) (as_records tl)
  | _ :: _ => None
  end.

(** [json_normalize(data)]: a list of dicts gives a frame of the flattened
    records, a single dict counts as a list of one, anything else raises. *)
Definition json_normalize (data : json) : result DataFrame :=
  match data with
  | JArr items =>
      match as_records items with
      | Some rs => Ok (DataFrame_of_records (map nested_to_record rs))
      | None => Err PandasError
      end
  | JObj d => Ok (DataFrame_of_records [nested_to_record d])
  | _ => Err PandasError
  end.

(** [df.columns = [x.strip().replace('.', '_') for x in df.columns]] *)
Definition rename_columns (df : DataFrame) : DataFrame :=
  {| df_columns := map sanitize (df_columns df); df_rows := df_rows df |}.

(** [pd.isna] on a cell: [None] and the float NaN. *)
Definition isna (v : json) : bool :=
  match v with
  | JNull => true
  | JFloat x => PrimFloat.is_nan x
  | _ => false
  end.

(** [df.fillna(value='', inplace=True)] *)
Definition fillna (df : DataFrame) : DataFrame :=
  {| df_columns := df_columns df;
     df_rows := map (map (fun v => if isna v then JStr "" else v)) (df_rows df) |}.

(** The three frame steps of cell 6 in a row. *)
Definition flattener (data : json) : result DataFrame :=
  match json_normalize data with
  | Ok df => Ok (fillna (rename_columns df))
  | Err e => Err e
  end.

(** [df.to_csv(path, index=False)]: the header line, then one line per row. *)
Definition to_csv (df : DataFrame) : list (list json) :=
  map JStr (df_columns df) :: df_rows df.

(** [bq.Schema.from_data(df)]: a field per column, typed by the kind of the
    column's dtype: int64 (['i']), bool (['b']), float64 (['f']); a column
    of any other dtype is typed STRING. *)
Inductive bq_type : Type := INTEGER | BOOLEAN | FLOAT | STRING.

Definition is_int (v : json) : bool :=
  match v with
  | JInt n => (- 2 ^ 63 <=? n)%Z && (n <? 2 ^ 63)%Z
  | _ => false
  end.
Definition is_bool (v : json) : bool := match v with JBool _ => true | _ => false end.
Definition is_float (v : json) : bool := match v with JFloat _ => true | _ => false end.

Definition dtype_kind (col : list json) : bq_type :=
  if forallb is_int col then INTEGER
  else if forallb is_bool col then BOOLEAN
  else if forallb is_float col then FLOAT
  else STRING.

Definition Schema : Type := list (string * bq_type).

Definition schema_from_data (df : DataFrame) : Schema :=
  imap (fun j name => (name, dtype_kind (column_values df j))) (df_columns df).

(** The dotted paths of a record, declaratively: a key whose value is not a
    dict, or a key whose value is a dict followed by a path of that dict. *)
Inductive leaf_path : list (string * json) -> string -> json -> Prop :=
| leaf_here d k v :
    (k, v) ∈ d -> is_dict v = false -> leaf_path d k v
| leaf_below d k d' p v :
    (k, JObj d') ∈ d -> leaf_path d' p v -> leaf_path d (k +:+ "." +:+ p) v.

(** The nesting depth of dicts, the measure for reasoning about
    [flatten_value]. *)
Fixpoint depth (v : json) : nat :=
  match v with
  | JObj d =>
      S ((fix go (l : list (string * json)) : nat :=
            match l with
            | [] => 0
            | (_, v') :: tl => Nat.max (depth v') (go tl)
            end) d)
  | _ => 0
  end.

(* ===================================================================== *)
(** ** Cell 2: names and the [logging] module *)
(* ===================================================================== *)

Definition bucket_name : string := "coin-market-cap-bucket".
Definition csv_file_name : string := "cmc_data.csv".
Definition log_file_name : string := "coinmarketcap.log".

Inductive level : Type := DEBUG | INFO | WARNING | ERROR | CRITICAL.

Definition levelno (l : level) : Z :=
  match l with
  | DEBUG => 10 | INFO => 20 | WARNING => 30 | ERROR => 40 | CRITICAL => 50
  end%Z.

(** A record of the log: the level, the format string and its arguments
    (the [asctime] prefix of the format is left out). *)
Record LogRecord : Type := {
  rec_level : level;
  rec_msg : string;
  rec_args : list json
}.

(** [logging.basicConfig(filename=log_file_name, format=...)] attaches a file
    handler to the root logger and passes no [level]: the root logger keeps
    the level it is created with, [WARNING].  A record below that level is
    dropped by the logger before any handler sees it. *)
Definition root_level : level := WARNING.

(** [Logger.isEnabledFor] *)
Definition isEnabledFor (l : level) : bool := (levelno root_level <=? levelno l)%Z.

(* ===================================================================== *)
(** ** The outside world: files, the bucket, the warehouse *)
(* ===================================================================== *)

Inductive file : Type :=
| FCsv (lines : list (list json))
| FLog (records : list LogRecord)
| FJson (doc : json).

Record Table : Type := {
  tbl_schema : Schema;
  tbl_rows : list (list json)
}.

(** Datasets by name, each a map from table name to table. *)
Abbreviation Warehouse := (gmap string (gmap string Table)).

(** [bq.Dataset(name).create()]: creates the dataset unless it exists. *)
Definition dataset_create (name : string) (w : Warehouse) : Warehouse :=
  match w !! name with
  | Some _ => w
  | None => <[name := ∅]> w
  end.

(** [bq.Table(ds.tbl).create(schema, overwrite)]: with [overwrite] an
    existing table is deleted first; the table that is inserted is empty.
    [None] stands for the exception raised when the dataset is missing or the
    table exists and is not to be overwritten. *)
Definition table_create (ds tbl : string) (schema : Schema) (overwrite : bool)
    (w : Warehouse) : option Warehouse :=
  match w !! ds with
  | None => None
  | Some tables =>
      let fresh := {| tbl_schema := schema; tbl_rows := [] |} in
      match tables !! tbl with
      | Some _ =>
          if overwrite then Some (<[ds := <[tbl := fresh]> (delete tbl tables)]> w)
          else None
      | None => Some (<[ds := <[tbl := fresh]> tables]> w)
      end
  end.

Inductive load_mode : Type := append | overwrite.

(** [table.load(source, mode, source_format='csv',
    csv_options=CSVOptions(skip_leading_rows=n))].  The lines after the first
    [n] become rows, added to the table ([append]) or replacing its rows
    ([overwrite]).  A source that is missing or is not a CSV loads nothing;
    [load] returns the job and does not raise.  How the warehouse checks a
    line against the schema is not modelled. *)
Definition add_rows (mode : load_mode) (new : list (list json)) (t : Table) : Table :=
  {| tbl_schema := tbl_schema t;
     tbl_rows := match mode with
                 | append => tbl_rows t ++ new
                 | overwrite => new
                 end |}.

Definition table_load (ds tbl : string) (source : option file) (mode : load_mode)
    (skip_leading_rows : nat) (w : Warehouse) : Warehouse :=
  match source with
  | Some (FCsv lines) =>
      alter (alter (add_rows mode (drop skip_leading_rows lines)) tbl) ds w
  | _ => w
  end.

(** The table [ds.tbl], when it exists. *)
Definition table_of (ds tbl : string) (w : Warehouse) : option Table :=
  match w !! ds with
  | Some tables => tables !! tbl
  | None => None
  end.

(** The specification's [replaceTableContents]: one operation after which
    the table has the given schema and exactly the data rows of the CSV. *)
Definition replaceTableContents (ds tbl : string) (schema : Schema)
    (csv : list (list json)) (w : Warehouse) : option Warehouse :=
  match w !! ds with
  | None => None
  | Some tables =>
      Some (<[ds := <[tbl := {| tbl_schema := schema; tbl_rows := drop 1 csv |}]>
                      (delete tbl tables)]> w)
  end.

(* ===================================================================== *)
(** ** Notebook state *)
(* ===================================================================== *)

(** A [requests.Response]: the status code, and [json.loads(response.text)]
    ([None] when the text is not JSON). *)
Record Response : Type := {
  status_code : Z;
  text_json : option json
}.

(** What [requests.request] does: it raises a [RequestException] or returns
    a response. *)
Inductive http_result : Type :=
| RequestException (e : string)
| Returned (r : Response).

(** What a run cannot decide by itself. *)
Record Env : Type := {
  http_get : http_result;      (* the outcome of the one GET *)
  cp_csv_ok : bool;            (* does [gsutil cp] of the CSV get through *)
  cp_log_ok : bool;            (* does [gsutil cp] of the log get through *)
  bash_env : string -> string  (* what [$x] expands to in the [%%bash] cell:
                                  the environment of the kernel, which the
                                  notebook's own variables are not part of *)
}.

(** What a run does, in order. *)
Inductive action : Type :=
| AGcsRead (key : string)
| AHttpGet (uri api_key : json)
| APrint (msg : string) (args : list json)
| ALog (lvl : level) (msg : string) (args : list json)
| AToCsv (path : string)
| AGsutilCp (src dst : string)
| AObjectExists (key : string)
| AExit (keep_kernel : Z)
| ADatasetCreate (name : string)
| ATableCreate (name : string) (overwrite : bool)
| ATableLoad (name source : string) (mode : load_mode)
| ARm (path : string).

Record State : Type := {
  (* notebook variables that a cell may find unbound or [None] *)
  response : option (option Response);
  coin_data_schema : option Schema;
  (* the world *)
  local : gmap string file;
  bucket : gmap string file;
  warehouse : Warehouse;
  (* what happened so far *)
  trace : list action
}.

Definition set_response (r : option Response) (st : State) : State :=
  {| response := Some r; coin_data_schema := coin_data_schema st;
     local := local st; bucket := bucket st; warehouse := warehouse st;
     trace := trace st |}.

Definition set_schema (s : Schema) (st : State) : State :=
  {| response := response st; coin_data_schema := Some s;
     local := local st; bucket := bucket st; warehouse := warehouse st;
     trace := trace st |}.

Definition set_local (l : gmap string file) (st : State) : State :=
  {| response := response st; coin_data_schema := coin_data_schema st;
     local := l; bucket := bucket st; warehouse := warehouse st;
     trace := trace st |}.

Definition set_bucket (b : gmap string file) (st : State) : State :=
  {| response := response st; coin_data_schema := coin_data_schema st;
     local := local st; bucket := b; warehouse := warehouse st;
     trace := trace st |}.

Definition set_warehouse (w : Warehouse) (st : State) : State :=
  {| response := response st; coin_data_schema := coin_data_schema st;
     local := local st; bucket := bucket st; warehouse := w;
     trace := trace st |}.

Definition emit (a : action) (st : State) : State :=
  {| response := response st; coin_data_schema := coin_data_schema st;
     local := local st; bucket := bucket st; warehouse := warehouse st;
     trace := trace st ++ [a] |}.

(** How a cell ends: it runs to its end, or an exception leaves it. *)
Inductive outcome : Type :=
| Done
| Raised (e : exn).

Definition cell : Type := State -> outcome * State.

(** The records of the local log file ([[]] when there is none). *)
Definition log_records (l : gmap string file) : list LogRecord :=
  match l !! log_file_name with
  | Some (FLog rs) => rs
  | _ => []
  end.

(** The file handler opens the log file for appending, creating it. *)
Definition logging_basicConfig (st : State) : State :=
  match local st !! log_file_name with
  | Some _ => st
  | None => set_local (<[log_file_name := FLog []]> (local st)) st
  end.

(** [logging.log(lvl, msg, *args)] on the root logger: the call is made, and
    the handler writes the record when the logger is enabled for [lvl]. *)
Definition logging_log (lvl : level) (msg : string) (args : list json)
    (st : State) : State :=
  let st := emit (ALog lvl msg args) st in
  if isEnabledFor lvl then
    set_local (<[log_file_name :=
                   FLog (log_records (local st) ++
                         [{| rec_level := lvl; rec_msg := msg; rec_args := args |}])]>
                 (local st)) st
  else st.

Definition logging_info := logging_log INFO.
Definition logging_error := logging_log ERROR.

Definition print (msg : string) (args : list json) (st : State) : State :=
  emit (APrint msg args) st.

(* ===================================================================== *)
(** ** Section I of the notebook, cell by cell *)
(* ===================================================================== *)

(** Cell 2: [logging.basicConfig(...)] and the start marker. *)
Definition cell_setup : cell := fun st =>
  let st := logging_basicConfig st in
  (Done, logging_info "############### SCRIPT START ###############" [] st).

(** Cell 2: [api_call].  A [RequestException] is caught and printed; the
    function then falls off its end and returns [None]. *)
Definition api_call (env : Env) (uri api_key : json) (st : State)
    : option Response * State :=
  let st := emit (AHttpGet uri api_key) st in
  match http_get env with
  | Returned r => (Some r, st)
  | RequestException e => (None, print e [] st)
  end.

Definition config_key : string := "config/config.json".

(** [config['api']['coinMarketCap'][k]] *)
Definition config_lookup (config : json) (k : string) : result json :=
  match getitem config "api" with
  | Err e => Err e
  | Ok api =>
      match getitem api "coinMarketCap" with
      | Err e => Err e
      | Ok cmc => getitem cmc k
      end
  end.

(** Cell 4: read the configuration, call the API, keep the response.  When
    the object is not there, [%gcs read] reports it on the error stream and
    binds nothing: the next line finds [config] unbound. *)
Definition cell_pull_data (env : Env) : cell := fun st =>
  let st := emit (AGcsRead config_key) st in
  match bucket st !! config_key with
  | None => (Raised NameError, st)
  | Some (FJson config) =>
      match config_lookup config "uri" with
      | Err e => (Raised e, st)
      | Ok cmc_api_uri =>
          match config_lookup config "key" with
          | Err e => (Raised e, st)
          | Ok cmc_api_key =>
              let '(r, st) := api_call env cmc_api_uri cmc_api_key st in
              let st := set_response r st in
              (Done, logging_info "Step 1 - Pull CoinMarketCap API data - Complete" [] st)
          end
      end
  | Some _ => (Raised ValueError, st)
  end.

Definition local_path : string := "/tmp/" +:+ csv_file_name.

(** [json.loads(response.text)['status']['error_message']] *)
Definition error_message (body : json) : result json :=
  match getitem body "status" with
  | Err e => Err e
  | Ok status => getitem status "error_message"
  end.

(** Cell 6: on a status other than 200 report the error; otherwise flatten
    the data, save the CSV and remember the schema. *)
Definition cell_save_csv : cell := fun st =>
  match response st with
  | None => (Raised NameError, st)
  | Some None => (Raised AttributeError, st)
  | Some (Some r) =>
      if negb (status_code r =? 200)%Z then
        match text_json r with
        | None => (Raised ValueError, st)
        | Some body =>
            match error_message body with
            | Err e => (Raised e, st)
            | Ok error_msg =>
                let st := print "Error fetching CoinMarketCap API data. {}" [error_msg] st in
                (Done, logging_error "Error fetching CoinMarketCap API data. %s" [error_msg] st)
            end
        end
      else
        match text_json r with
        | None => (Raised ValueError, st)
        | Some body =>
            match getitem body "data" with
            | Err e => (Raised e, st)
            | Ok crypto_data_list =>
                match flattener crypto_data_list with
                | Err e => (Raised e, st)
                | Ok crypto_data_tbl_df =>
                    let st := emit (AToCsv local_path) st in
                    let st := set_local (<[local_path := FCsv (to_csv crypto_data_tbl_df)]>
                                           (local st)) st in
                    let st := set_schema (schema_from_data crypto_data_tbl_df) st in
                    (Done, logging_info "Step 2 - Save CSV File - Complete" [] st)
                end
            end
        end
  end.

Definition gs_url (key : string) : string := "gs://" +:+ bucket_name +:+ "/" +:+ key.

(** [!gsutil cp src gs://bucket/key].  The object is written when the local
    file exists and the transfer gets through; a failing shell command raises
    nothing in the notebook. *)
Definition gsutil_cp (ok : bool) (src key : string) (st : State) : State :=
  let st := emit (AGsutilCp src (gs_url key)) st in
  match local st !! src with
  | Some f => if ok then set_bucket (<[key := f]> (bucket st)) st else st
  | None => st
  end.

(** [storage.Object(bucket_name, key).exists()] *)
Definition object_exists (key : string) (st : State) : bool * State :=
  (bool_decide (is_Some (bucket st !! key)), emit (AObjectExists key) st).

(** The object key of the CSV and its [gs://] URL, as cell 8 binds them;
    cell 10 reads [bucket_path]. *)
Definition bucket_key : string := "cryptocurrency-data" +:+ "/" +:+ csv_file_name.
Definition bucket_path : string := gs_url bucket_key.

(** [exit(keep_kernel)] in the kernel: the request to close is recorded, and
    the call returns. *)
Definition kernel_exit (keep_kernel : Z) (st : State) : State :=
  emit (AExit keep_kernel) st.

(** Cell 8: copy the CSV to the bucket and check that the object exists. *)
Definition cell_upload (env : Env) : cell := fun st =>
  let st := gsutil_cp (cp_csv_ok env) local_path bucket_key st in
  let '(found, st) := object_exists bucket_key st in
  if negb found then
    let st := print "File not successfully uploaded to bucket. Issue logged" [] st in
    let st := logging_error "%s was not uploaded to bucket successfully."
                [JStr csv_file_name] st in
    (Done, kernel_exit 1 st)
  else
    (Done, logging_info "Step 3 - Upload to GCS Bucket - Complete" [] st).

(** The end of cell 10, after the [if]. *)
Definition step_4_log (st : State) : State :=
  let st := logging_info "Step 4 - Insert into BigQuery Table - Complete" [] st in
  logging_info "############### SCRIPT END ###############" [] st.

(** Cell 10: on status 200 create the dataset, create the table over any
    old one, and load the CSV object in append mode; then log. *)
Definition cell_bigquery : cell := fun st =>
  match response st with
  | None => (Raised NameError, st)
  | Some None => (Raised AttributeError, st)
  | Some (Some r) =>
      if (status_code r =? 200)%Z then
        let st := emit (ADatasetCreate "cryptocurrency") st in
        let st := set_warehouse (dataset_create "cryptocurrency" (warehouse st)) st in
        match coin_data_schema st with
        | None => (Raised NameError, st)
        | Some schema =>
            let st := emit (ATableCreate "cryptocurrency.coin_data" true) st in
            match table_create "cryptocurrency" "coin_data" schema true (warehouse st) with
            | None => (Raised BigQueryError, st)
            | Some w =>
                let st := set_warehouse w st in
                let st := emit (ATableLoad "cryptocurrency.coin_data" bucket_path append) st in
                let st := set_warehouse
                            (table_load "cryptocurrency" "coin_data"
                               (bucket st !! bucket_key) append 1 (warehouse st)) st in
                (Done, step_4_log st)
            end
        end
      else (Done, step_4_log st)
  end.

(** Cell 11: copy the log file to the bucket. *)
Definition log_bucket_key : string := "config" +:+ "/" +:+ log_file_name.

Definition cell_log_upload (env : Env) : cell := fun st =>
  (Done, gsutil_cp (cp_log_ok env) log_file_name log_bucket_key st).

(** [rm -f $x] in the [%%bash] cell, [path] being what [$x] expands to
    there; an empty expansion leaves [rm -f] without an operand. *)
Definition rm_f (path : string) (st : State) : State :=
  let st := emit (ARm path) st in
  if String.eqb path "" then st else set_local (delete path (local st)) st.

(** Cell 12: the cleanup. *)
Definition cell_cleanup (env : Env) : cell := fun st =>
  let st := rm_f (bash_env env "local_path") st in
  (Done, rm_f (bash_env env "log_file_name") st).

(* ===================================================================== *)
(** ** Running the notebook *)
(* ===================================================================== *)

(** Cells run top to bottom; a cell that raises ends the run. *)
Fixpoint run_cells (cs : list cell) (st : State) : outcome * State :=
  match cs with
  | [] => (Done, st)
  | c :: cs' =>
      match c st with
      | (Done, st') => run_cells cs' st'
      | stopped => stopped
      end
  end.

(** Cells 2 to 10, up to the warehouse load. *)
Definition steps (env : Env) : list cell :=
  [cell_setup; cell_pull_data env; cell_save_csv; cell_upload env; cell_bigquery].

(** All of section I. *)
Definition pipeline (env : Env) : list cell :=
  steps env ++ [cell_log_upload env; cell_cleanup env].

(** What a run starts from. *)
Record World : Type := {
  w_local : gmap string file;
  w_bucket : gmap string file;
  w_warehouse : Warehouse
}.

(** A fresh kernel: no variable is bound, nothing has happened. *)
Definition fresh_kernel (w : World) : State :=
  {| response := None; coin_data_schema := None;
     local := w_local w; bucket := w_bucket w; warehouse := w_warehouse w;
     trace := [] |}.

Definition run_all (env : Env) (w : World) : outcome * State :=
  run_cells (pipeline env) (fresh_kernel w).

(** *** Reading a trace *)

(** The copy of the CSV to the bucket (cell 8). *)
Definition is_upload (a : action) : bool :=
  match a with
  | AGsutilCp src _ => String.eqb src local_path
  | _ => false
  end.

(** A warehouse call (cell 10). *)
Definition is_warehouse (a : action) : bool :=
  match a with
  | ADatasetCreate _ | ATableCreate _ _ | ATableLoad _ _ _ => true
  | _ => false
  end.

(** A removal (cell 12). *)
Definition is_cleanup (a : action) : bool :=
  match a with ARm _ => true | _ => false end.

Definition upload_ran (st : State) : bool := existsb is_upload (trace st).
Definition warehouse_ran (st : State) : bool := existsb is_warehouse (trace st).
Definition cleanup_ran (st : State) : bool := existsb is_cleanup (trace st).

(** Does the log hold a record with this message? *)
Definition in_log (msg : string) (rs : list LogRecord) : bool :=
  existsb (fun r => String.eqb (rec_msg r) msg) rs.

Definition step_3_complete : string := "Step 3 - Upload to GCS Bucket - Complete".
Definition step_4_complete : string := "Step 4 - Insert into BigQuery Table - Complete".
Definition script_end : string := "############### SCRIPT END ###############".
Definition upload_failed : LogRecord :=
  {| rec_level := ERROR;
     rec_msg := "%s was not uploaded to bucket successfully.";
     rec_args := [JStr csv_file_name] |}.

(** The copy of the log file to the bucket (cell 11). *)
Definition is_log_upload (a : action) : bool :=
  match a with
  | AGsutilCp src _ => String.eqb src log_file_name
  | _ => false
  end.

Definition log_upload_ran (st : State) : bool := existsb is_log_upload (trace st).

(** An HTTP request (cell 4). *)
Definition is_request (a : action) : bool :=
  match a with AHttpGet _ _ => true | _ => false end.

Definition request_made (st : State) : bool := existsb is_request (trace st).

Definition script_start : string := "############### SCRIPT START ###############".
Definition step_1_complete : string := "Step 1 - Pull CoinMarketCap API data - Complete".

(* ===================================================================== *)
(** ** Section II, query 1 *)
(* ===================================================================== *)

(** The columns of [cryptocurrency.coin_data] that query 1 reads.  Fields of
    the inferred schema are nullable. *)
Record coin_data_row : Type := {
  name : option string;
  quote_usd_price : option float
}.

(** [e > c] in SQL: NULL when [e] is NULL. *)
Definition sql_gt (e : option float) (c : float) : option bool :=
  option_map (fun x => PrimFloat.ltb c x) e.

(** [where p]: the rows on which [p] is true (not false, not NULL). *)
Definition sql_where {A} (p : A -> option bool) (t : list A) : list A :=
  List.filter (fun r => match p r with Some true => true | _ => false end) t.

(** [count(e)]: the number of rows on which [e] is not NULL. *)
Definition sql_count {A B} (e : A -> option B) (t : list A) : nat :=
  length (List.filter (fun r => match e r with Some _ => true | None => false end) t).

(** [select count(name) as num_coins_gt_8k from cryptocurrency.coin_data
     where quote_usd_price > 8000] *)
Definition coins_gt_8k (t : list coin_data_row) : nat :=
  sql_count name (sql_where (fun r => sql_gt (quote_usd_price r) 8000%float) t).

(** A row whose price is strictly greater than 8000, whatever its name. *)
Definition price_gt_8000 (r : coin_data_row) : bool :=
  match quote_usd_price r with
  | Some p => PrimFloat.ltb 8000%float p
  | None => false
  end.

(** A row that has a name. *)
Definition named (r : coin_data_row) : bool :=
  match name r with Some _ => true | None => false end.

(* ===================================================================== *)
(** ** Section II, queries 2, 4 and 5 *)
(* ===================================================================== *)

(** The columns of [cryptocurrency.coin_data] that queries 2, 4 and 5 read,
    typed as the queries use them; every field of the inferred schema is
    nullable. *)
Module CoinData.
Record row : Type := {
  name : option string;
  symbol : option string;
  cmc_rank : option Z;
  quote_USD_market_cap : option float;
  quote_USD_percent_change_7d : option float
}.
End CoinData.

(** *** [order by] and [limit] *)

(** The order of FLOAT64 values in [order by ... asc]: NULL first, then NaN,
    then the numbers from -inf to +inf, the two zeros being equal. *)
Definition float64_le (a b : option float) : bool :=
  match a, b with
  | None, _ => true
  | Some _, None => false
  | Some x, Some y =>
      if PrimFloat.is_nan x then true
      else if PrimFloat.is_nan y then false
      else PrimFloat.leb x y
  end.

(** The order of INT64 values in [order by ... asc]: NULL first. *)
Definition int64_le (a b : option Z) : bool :=
  match a, b with
  | None, _ => true
  | Some _, None => false
  | Some x, Some y => (x <=? y)%Z
  end.

(** [desc] reverses the order, NULLs included. *)
Definition desc {K} (le : K -> K -> bool) : K -> K -> bool := fun a b => le b a.

Section OrderBy.

Context {A K : Type} (le : K -> K -> bool) (key : A -> K).

(** A row goes in front of the first row that is not before it. *)
Fixpoint insert_row (a : A) (l : list A) : list A :=
  match l with
  | [] => [a]
  | b :: l' => if le (key a) (key b) then a :: l else b :: insert_row a l'
  end.

(** [order by key].  The warehouse promises no order among rows with equal
    keys; this is the order that keeps such rows as the table has them. *)
Definition sql_order_by (t : list A) : list A := foldr insert_row [] t.

(** Every order the warehouse may return: the rows of the table, each
    before the rows that follow it. *)
Definition ordered_by (t out : list A) : Prop :=
  out ≡ₚ t /\ StronglySorted (fun a b => le (key a) (key b) = true) out.

(** Two rows that [order by key] may return in either order. *)
Definition tied (a b : A) : Prop :=
  le (key a) (key b) = true /\ le (key b) (key a) = true.

End OrderBy.

(** [limit n] *)
Definition sql_limit {A} (n : nat) (t : list A) : list A := take n t.

(** [sum(e)] over FLOAT64: NULLs are skipped, and the sum of no value is
    NULL.  The values are added in the order of the rows. *)
Definition sql_sum {A} (e : A -> option float) (t : list A) : option float :=
  fold_left (fun acc r =>
               match e r, acc with
               | None, _ => acc
               | Some x, None => Some x
               | Some x, Some s => Some (s + x)%float
               end) t None.

(** [select sum(z.quote_USD_market_cap) as total_market_cap from
     (select quote_USD_market_cap from cryptocurrency.coin_data
      order by cmc_rank limit 100) z] *)
Definition top_100 (t : list CoinData.row) : option float :=
  let z := map CoinData.quote_USD_market_cap
             (sql_limit 100 (sql_order_by int64_le CoinData.cmc_rank t)) in
  sql_sum (fun quote_USD_market_cap => quote_USD_market_cap) z.

(** [select name from cryptocurrency.coin_data
     order by quote_USD_percent_change_7d desc limit 5] *)
Definition highest_growth_week (t : list CoinData.row) : list (option string) :=
  map CoinData.name
    (sql_limit 5
       (sql_order_by (desc float64_le) CoinData.quote_USD_percent_change_7d t)).

(** *** [upper] and [like] *)

(** [upper] on a character: the letters a to z.  Characters above 127 are
    left as they are; the properties below are stated for ASCII text. *)
Definition upper_char (c : ascii) : ascii :=
  let n := nat_of_ascii c in
  if (97 <=? n)%nat && (n <=? 122)%nat then ascii_of_nat (n - 32) else c.

Fixpoint upper (s : string) : string :=
  match s with
  | EmptyString => EmptyString
  | String c s' => String (upper_char c) (upper s')
  end.

Definition is_ascii (s : string) : bool :=
  forallb (fun c => (nat_of_ascii c <? 128)%nat) (list_ascii_of_string s).

(** [s like pat]: ['%'] stands for any run of characters, ['_'] for one
    character, any other character for itself (the pattern of query 5 has no
    escape). *)
Fixpoint like (pat : string) (s : string) {struct pat} : bool :=
  match pat with
  | EmptyString => match s with EmptyString => true | _ => false end
  | String p pat' =>
      if Ascii.eqb p "%" then
        (fix skip (s : string) : bool :=
           like pat' s
           || match s with EmptyString => false | String _ s' => skip s' end) s
      else
        match s with
        | EmptyString => false
        | String c s' => (Ascii.eqb p "_" || Ascii.eqb p c) && like pat' s'
        end
  end.

(** Both are NULL on NULL. *)
Definition sql_upper (e : option string) : option string := option_map upper e.
Definition sql_like (e : option string) (pat : string) : option bool :=
  option_map (like pat) e.

(** [count( * )]: the number of rows. *)
Definition sql_count_star {A} (t : list A) : nat := length t.

(** [select count( * ) as num_symbol_w_X from cryptocurrency.coin_data
     where upper(symbol) like '%X%'] *)
Definition x_in_symbol (t : list CoinData.row) : nat :=
  sql_count_star
    (sql_where (fun r => sql_like (sql_upper (CoinData.symbol r)) "%X%") t).

(** A symbol with an x in it, small or capital. *)
Definition has_x (r : CoinData.row) : bool :=
  match CoinData.symbol r with
  | Some s => PyStr.contains "x" s || PyStr.contains "X" s
  | None => false
  end.

(* ===================================================================== *)
(** ** Concrete inputs *)
(* ===================================================================== *)

Module Sample.

Definition usd (price change_7d : float) : json :=
  JObj [("USD", JObj [("price", JFloat price);
                      ("percent_change_7d", JFloat change_7d)])].

Definition bitcoin : list (string * json) :=
  [("id", JInt 1); ("name", JStr "Bitcoin"); ("symbol", JStr "BTC");
   ("cmc_rank", JInt 1); ("max_supply", JInt 21000000);
   ("quote", usd 3800.5 1.25)].

(** No [max_supply] key, and a platform block that Bitcoin lacks. *)
Definition tether : list (string * json) :=
  [("id", JInt 825); ("name", JStr "Tether"); ("symbol", JStr "USDT");
   ("cmc_rank", JInt 7); ("platform", JObj [("name", JStr "Omni")]);
   ("quote", usd 1.5 0.5)].

Definition ok_body : json :=
  JObj [("status", JObj [("error_code", JInt 0); ("error_message", JNull)]);
        ("data", JArr [JObj bitcoin; JObj tether])].

Definition error_body : json :=
  JObj [("status", JObj [("error_code", JInt 1001);
                         ("error_message", JStr "This API Key is invalid.")])].

Definition ok_response : Response := {| status_code := 200; text_json := Some ok_body |}.
Definition unauthorized : Response := {| status_code := 401; text_json := Some error_body |}.

Definition config : json :=
  JObj [("api", JObj [("coinMarketCap",
          JObj [("uri", JStr "https://pro-api.coinmarketcap.com/v1/cryptocurrency/listings/latest");
                ("key", JStr "secret")])])].

(** The shell sees the notebook's names, or sees nothing. *)
Definition bash_sees_names (x : string) : string :=
  if String.eqb x "local_path" then local_path
  else if String.eqb x "log_file_name" then log_file_name
  else "".

Definition env_of (h : http_result) (cp_ok : bool) : Env :=
  {| http_get := h; cp_csv_ok := cp_ok; cp_log_ok := cp_ok; bash_env := bash_sees_names |}.

(** The first run ever: only the configuration is in the bucket. *)
Definition first_run : World :=
  {| w_local := ∅; w_bucket := {[ config_key := FJson config ]}; w_warehouse := ∅ |}.

(** A later run: the object and the table of an earlier run are still there. *)
Definition old_line : list json := [JInt 99; JStr "Oldcoin"].
Definition old_csv : file := FCsv [[JStr "id"; JStr "name"]; old_line].
Definition old_table : Table :=
  {| tbl_schema := [("id", INTEGER); ("name", STRING)]; tbl_rows := [old_line] |}.

Definition later_run : World :=
  {| w_local := ∅;
     w_bucket := <[bucket_key := old_csv]> {[ config_key := FJson config ]};
     w_warehouse := {[ "cryptocurrency" := {[ "coin_data" := old_table ]} ]} |}.

(** The API answers well; the copy to the bucket works, or fails. *)
Definition copy_works : Env := env_of (Returned ok_response) true.
Definition copy_fails : Env := env_of (Returned ok_response) false.

(** The state of a first run when cell 6 has saved the CSV. *)
Definition csv_saved : State :=
  (run_cells [cell_setup; cell_pull_data copy_works; cell_save_csv]
     (fresh_kernel first_run)).2.

(** The API refuses the key. *)
Definition key_refused : Env := env_of (Returned unauthorized) true.

(** The GET fails below HTTP. *)
Definition no_network : Env := env_of (RequestException "Connection refused") true.

(** Rows for query 1.  A decimal literal stands for the nearest binary64
    value, in the table as here. *)
Definition priced (n : string) (p : float) : coin_data_row :=
  {| name := Some n; quote_usd_price := Some p |}.

Definition four_rows : list coin_data_row :=
  [priced "a" 100; priced "b" 9000; priced "c" 8000.01; priced "d" 7999].

Definition nameless : coin_data_row :=
  {| name := None; quote_usd_price := Some 9000%float |}.

End Sample.

(** More inputs for the pipeline. *)
Module Cases.

(** No configuration object; a configuration without the API key. *)
Definition no_config : World :=
  {| w_local := ∅; w_bucket := ∅; w_warehouse := ∅ |}.

Definition keyless_config : json :=
  JObj [("api", JObj [("coinMarketCap", JObj [("uri", JStr "https://example.org")])])].

Definition keyless : World :=
  {| w_local := ∅; w_bucket := {[ config_key := FJson keyless_config ]}; w_warehouse := ∅ |}.

(** A gateway answers with an HTML page. *)
Definition bad_gateway : Response := {| status_code := 502; text_json := None |}.

(** A 200 answer whose data is a number. *)
Definition scalar_data : Response :=
  {| status_code := 200; text_json := Some (JObj [("data", JInt 0)]) |}.

(** A record in which a flat key and a nested path get the same name. *)
Definition clash : list (string * json) :=
  [("quote_USD", JInt 1); ("quote", JObj [("USD", JInt 2)])].

(** A shell that has none of the notebook's names. *)
Definition bash_sees_nothing (x : string) : string := "".

Definition unexported : Env :=
  {| http_get := Returned Sample.ok_response; cp_csv_ok := true; cp_log_ok := true;
     bash_env := bash_sees_nothing |}.

(** The same, with the copy of the CSV failing, and with the API refusing
    the key. *)
Definition lost_copy : Env :=
  {| http_get := Returned Sample.ok_response; cp_csv_ok := false; cp_log_ok := true;
     bash_env := bash_sees_nothing |}.

Definition refused : Env :=
  {| http_get := Returned Sample.unauthorized; cp_csv_ok := true; cp_log_ok := true;
     bash_env := bash_sees_nothing |}.

(** A warehouse with another table beside [coin_data], and another dataset. *)
Definition other_table : Table :=
  {| tbl_schema := [("day", STRING)]; tbl_rows := [[JStr "2019-01-01"]] |}.

Definition shared_warehouse : World :=
  {| w_local := ∅;
     w_bucket := {[ config_key := FJson Sample.config ]};
     w_warehouse := {[ "cryptocurrency" := {[ "coin_data" := Sample.old_table;
                                              "history" := other_table ]};
                       "billing" := {[ "coin_data" := other_table ]} ]} |}.

End Cases.

(** A table for the queries of section II. *)
Module Market.

Definition coin (n s : string) (rank : Z) (cap change : float) : CoinData.row :=
  {| CoinData.name := Some n; CoinData.symbol := Some s;
     CoinData.cmc_rank := Some rank;
     CoinData.quote_USD_market_cap := Some cap;
     CoinData.quote_USD_percent_change_7d := Some change |}.

(** A row the load left without values. *)
Definition blank : CoinData.row :=
  {| CoinData.name := None; CoinData.symbol := None; CoinData.cmc_rank := None;
     CoinData.quote_USD_market_cap := None;
     CoinData.quote_USD_percent_change_7d := None |}.

Definition btc := coin "Bitcoin" "BTC" 1 70000 1.5.
Definition xrp := coin "XRP" "XRP" 3 2000 (-2).
Definition xlm := coin "Stellar" "xlm" 14 300 7.
Definition eth := coin "Ethereum" "ETH" 2 30000 4.
Definition doge := coin "Dogecoin" "DOGE" 8 1000 12.5.
Definition ada := coin "Cardano" "ADA" 9 900 (-0.5).
Definition broken := coin "Broken" "BRK" 50 10 PrimFloat.nan.

Definition table : list CoinData.row := [btc; xrp; xlm; eth; blank; doge; ada; broken].

End Market.


(* ===================================================================== *)
(** * Properties *)
(* ===================================================================== *)

(** ** Column names *)

Section Sanitize.

Local Abbreviation dot := "."%char.
Local Abbreviation underscore := "_"%char.
Local Abbreviation swap c := (if Ascii.eqb c%char dot then underscore else c%char).

Lemma isspace_swap c : PyStr.isspace (swap c) = PyStr.isspace c.
Proof.
  destruct (Ascii.eqb c dot) eqn:E; [|reflexivity].
  apply Ascii.eqb_eq in E. subst c. reflexivity.
Qed.

Lemma swap_swap c : swap (swap c) = swap c.
Proof.
  destruct (Ascii.eqb c dot) eqn:E; [reflexivity|].
  rewrite E. reflexivity.
Qed.

Lemma swap_not_dot c : Ascii.eqb (swap c) dot = false.
Proof.
  destruct (Ascii.eqb c dot) eqn:E; [reflexivity|assumption].
Qed.

Lemma replace_cons c s :
  PyStr.replace dot underscore (String c s)
  = String (swap c) (PyStr.replace dot underscore s).
Proof. reflexivity. Qed.

Lemma replace_replace s :
  PyStr.replace dot underscore (PyStr.replace dot underscore s)
  = PyStr.replace dot underscore s.
Proof.
  induction s as [|c s IH]; [reflexivity|].
  rewrite !replace_cons, swap_swap, IH. reflexivity.
Qed.

Lemma replace_has_no_dot s :
  PyStr.contains dot (PyStr.replace dot underscore s) = false.
Proof.
  induction s as [|c s IH]; [reflexivity|].
  rewrite replace_cons. cbn [PyStr.contains].
  rewrite swap_not_dot, IH. reflexivity.
Qed.

Lemma lstrip_replace s :
  PyStr.lstrip (PyStr.replace dot underscore s)
  = PyStr.replace dot underscore (PyStr.lstrip s).
Proof.
  induction s as [|c s IH]; [reflexivity|].
  rewrite replace_cons. cbn [PyStr.lstrip]. rewrite isspace_swap.
  destruct (PyStr.isspace c); [exact IH|]. rewrite replace_cons. reflexivity.
Qed.

Lemma rstrip_replace s :
  PyStr.rstrip (PyStr.replace dot underscore s)
  = PyStr.replace dot underscore (PyStr.rstrip s).
Proof.
  induction s as [|c s IH]; [reflexivity|].
  rewrite replace_cons. cbn [PyStr.rstrip]. rewrite IH, isspace_swap.
  destruct (PyStr.rstrip s) as [|a r].
  - cbn [PyStr.replace]. destruct (PyStr.isspace c); reflexivity.
  - rewrite !replace_cons. reflexivity.
Qed.

Lemma strip_replace s :
  PyStr.strip (PyStr.replace dot underscore s)
  = PyStr.replace dot underscore (PyStr.strip s).
Proof. unfold PyStr.strip. rewrite lstrip_replace, rstrip_replace. reflexivity. Qed.

Lemma lstrip_lstrip s : PyStr.lstrip (PyStr.lstrip s) = PyStr.lstrip s.
Proof.
  induction s as [|c s IH]; [reflexivity|].
  cbn [PyStr.lstrip]. destruct (PyStr.isspace c) eqn:E; [exact IH|].
  cbn [PyStr.lstrip]. rewrite E. reflexivity.
Qed.

Lemma rstrip_rstrip s : PyStr.rstrip (PyStr.rstrip s) = PyStr.rstrip s.
Proof.
  induction s as [|c s IH]; [reflexivity|].
  cbn [PyStr.rstrip]. destruct (PyStr.rstrip s) as [|a r] eqn:E.
  - destruct (PyStr.isspace c) eqn:Ec; [reflexivity|].
    cbn [PyStr.rstrip]. rewrite Ec. reflexivity.
  - change (PyStr.rstrip (String c (String a r)))
      with (match PyStr.rstrip (String a r) with
            | EmptyString => if PyStr.isspace c then EmptyString else String c EmptyString
            | r' => String c r'
            end).
    rewrite IH. reflexivity.
Qed.

(** Stripping the right end leaves a stripped left end alone. *)
Lemma lstrip_rstrip_fixed s :
  PyStr.lstrip s = s -> PyStr.lstrip (PyStr.rstrip s) = PyStr.rstrip s.
Proof.
  destruct s as [|c s]; [reflexivity|]. intros H.
  destruct (PyStr.isspace c) eqn:Ec.
  - exfalso. cbn [PyStr.lstrip] in H. rewrite Ec in H.
    assert (L : forall t, String.length (PyStr.lstrip t) <= String.length t).
    { clear. induction t as [|b t IH]; cbn [PyStr.lstrip String.length]; [lia|].
      destruct (PyStr.isspace b); cbn [String.length]; lia. }
    specialize (L s). rewrite H in L. cbn [String.length] in L. lia.
  - cbn [PyStr.rstrip]. destruct (PyStr.rstrip s); [rewrite Ec|];
      cbn [PyStr.lstrip]; rewrite Ec; reflexivity.
Qed.

Lemma strip_strip s : PyStr.strip (PyStr.strip s) = PyStr.strip s.
Proof.
  unfold PyStr.strip.
  rewrite (lstrip_rstrip_fixed (PyStr.lstrip s)) by apply lstrip_lstrip.
  apply rstrip_rstrip.
Qed.

(** C7.  The renaming of cell 6, [x.strip().replace('.', '_')], is
    idempotent, and no name it returns contains a ['.']. *)
Theorem sanitize_idempotent_and_dot_free (s : string) :
  sanitize (sanitize s) = sanitize s
  /\ PyStr.contains "." (sanitize s) = false.
Proof.
  unfold sanitize. split.
  - rewrite (strip_replace (PyStr.strip s)), strip_strip. apply replace_replace.
  - apply replace_has_no_dot.
Qed.

End Sanitize.

(** ** The flattener *)

Section Flattener.

Implicit Types (d : list (string * json)) (k p c : string) (v : json).

Lemma append_assoc (a b c' : string) : (a +:+ b) +:+ c' = a +:+ (b +:+ c').
Proof.
  induction a as [|x a IH]; [reflexivity|].
  change (String x ((a +:+ b) +:+ c') = String x (a +:+ (b +:+ c'))).
  f_equal. exact IH.
Qed.

Lemma join_assoc (a b c' : string) :
  (a +:+ "." +:+ b) +:+ "." +:+ c' = a +:+ "." +:+ (b +:+ "." +:+ c').
Proof. rewrite append_assoc. reflexivity. Qed.

Lemma flatten_value_dict key d :
  flatten_value key (JObj d)
  = flat_map (fun kv => flatten_value (key +:+ "." +:+ kv.1) kv.2) d.
Proof.
  cbn [flatten_value].
  induction d as [|[k v] tl IH]; [reflexivity|].
  cbn [flat_map fst snd]. rewrite IH. reflexivity.
Qed.

Lemma flatten_value_leaf key v :
  is_dict v = false -> flatten_value key v = [(key, v)].
Proof. destruct v; [reflexivity..|discriminate]. Qed.

(** Every path of a dict is found under the key the dict is stored at
    (and, by [flatten_leaf_path], nothing else is). *)
Lemma leaf_path_flatten d p v :
  leaf_path d p v ->
  forall key, (key +:+ "." +:+ p, v) ∈ flatten_value key (JObj d).
Proof.
  induction 1 as [d k v Hin Hleaf | d k d' p v Hin _ IH]; intros key;
    rewrite flatten_value_dict, list_elem_of_In, in_flat_map.
  - exists (k, v). split; [by apply list_elem_of_In|].
    cbn [fst snd]. rewrite flatten_value_leaf by done. by left.
  - exists (k, JObj d'). split; [by apply list_elem_of_In|].
    cbn [fst snd]. apply list_elem_of_In.
    specialize (IH (key +:+ "." +:+ k)).
    rewrite join_assoc in IH. exact IH.
Qed.

Lemma depth_field k v d : (k, v) ∈ d -> depth v < depth (JObj d).
Proof.
  intros Hin. cbn [depth].
  induction d as [|[k' v'] tl IH]; [by apply elem_of_nil in Hin|].
  apply elem_of_cons in Hin as [E|Hin].
  - injection E as -> ->. lia.
  - specialize (IH Hin). lia.
Qed.

Lemma flatten_leaf_path n :
  forall d key q v,
    depth (JObj d) <= n ->
    (q, v) ∈ flatten_value key (JObj d) ->
    exists p, q = key +:+ "." +:+ p /\ leaf_path d p v.
Proof.
  induction n as [|n IH]; intros d key q v Hn Hin; [cbn in Hn; lia|].
  rewrite flatten_value_dict, list_elem_of_In, in_flat_map in Hin.
  destruct Hin as ([k x] & Hkx & Hin). cbn [fst snd] in Hin.
  apply list_elem_of_In in Hkx, Hin.
  destruct (is_dict x) eqn:Hx.
  - destruct x as [| | | | | |d']; try discriminate.
    assert (Hd : depth (JObj d') <= n).
    { pose proof (depth_field _ _ _ Hkx). lia. }
    destruct (IH d' _ _ _ Hd Hin) as (p & -> & Hp).
    exists (k +:+ "." +:+ p). split.
    + apply join_assoc.
    + by eapply leaf_below.
  - rewrite flatten_value_leaf in Hin by done.
    apply list_elem_of_singleton in Hin. injection Hin as -> ->.
    exists k. split; [reflexivity|]. by apply leaf_here.
Qed.

(** The items of a flattened record are exactly its dotted paths. *)
Lemma nested_to_record_spec d p v :
  (p, v) ∈ nested_to_record d <-> leaf_path d p v.
Proof.
  unfold nested_to_record. rewrite elem_of_app, !list_elem_of_In, in_flat_map, filter_In.
  split.
  - intros [[Hin Hleaf] | ([k x] & Hkx & Hin)]; cbn [fst snd] in *.
    + apply leaf_here; [by apply list_elem_of_In|]. by destruct (is_dict v).
    + apply list_elem_of_In in Hkx.
      destruct x as [| | | | | |d']; cbn [is_dict] in Hin; try by destruct Hin.
      apply list_elem_of_In in Hin.
      destruct (flatten_leaf_path _ d' k p v (le_n _) Hin) as (q & -> & Hq).
      by eapply leaf_below.
  - intros H. destruct H as [d k v Hin Hleaf | d k d' p v Hin Hp].
    + left. split; [by apply list_elem_of_In|]. cbn [snd]. by rewrite Hleaf.
    + right. exists (k, JObj d'). split; [by apply list_elem_of_In|].
      cbn [fst snd is_dict]. apply list_elem_of_In. by apply leaf_path_flatten.
Qed.

Lemma dict_get_Some d k v : dict_get d k = Some v -> (k, v) ∈ d.
Proof.
  induction d as [|[k' x] tl IH]; [discriminate|]. cbn [dict_get].
  destruct (dict_get tl k) as [y|].
  - intros [= ->]. right. by apply IH.
  - destruct (String.eqb k' k) eqn:E; [|discriminate].
    apply String.eqb_eq in E. subst k'. intros [= ->]. by left.
Qed.



Lemma as_records_dicts (objs : list (list (string * json))) :
  as_records (map JObj objs) = Some objs.
Proof.
  induction objs as [|o objs IH]; [reflexivity|].
  cbn [map as_records]. rewrite IH. reflexivity.
Qed.

(** What cell 6 computes from a list of dicts. *)
Lemma flattener_dicts (objs : list (list (string * json))) :
  flattener (JArr (map JObj objs))
  = Ok (fillna (rename_columns (DataFrame_of_records (map nested_to_record objs)))).
Proof. unfold flattener, json_normalize. rewrite as_records_dicts. reflexivity. Qed.


Lemma lookup_map {A B} (f : A -> B) (l : list A) (i : nat) :
  map f l !! i = f <$> (l !! i).
Proof.
  revert i. induction l as [|x l IH]; intros [|i]; try reflexivity. apply IH.
Qed.

Lemma dict_get_None d k : (forall v, (k, v) ∉ d) -> dict_get d k = None.
Proof.
  intros H. destruct (dict_get d k) as [v|] eqn:E; [|reflexivity].
  exfalso. eapply H, dict_get_Some, E.
Qed.

(** C6.  In the frame cell 6 builds, every row has a cell for every column;
    and where a record has no leaf at a path that is a column (because some
    record has one), its row holds the empty string in that column. *)
Theorem missing_field_is_empty_string
    (objs : list (list (string * json))) (df : DataFrame) :
  flattener (JArr (map JObj objs)) = Ok df ->
  (forall row, row ∈ df_rows df -> length row = length (df_columns df))
  /\ forall i j o p,
       objs !! i = Some o ->
       column_universe (map nested_to_record objs) !! j = Some p ->
       (forall v, ~ leaf_path o p v) ->
       df_columns df !! j = Some (sanitize p)
       /\ exists row, df_rows df !! i = Some row /\ row !! j = Some (JStr "").
Proof.
  rewrite flattener_dicts. intros [= <-].
  cbn [fillna rename_columns DataFrame_of_records convert_object_array
       df_rows df_columns]. split.
  - intros row Hrow.
    apply list_elem_of_In, in_map_iff in Hrow as (row' & <- & Hrow).
    apply in_map_iff in Hrow as (raw & <- & Hraw).
    apply in_map_iff in Hraw as (r & <- & _).
    unfold make_row. rewrite length_map, length_imap, !length_map. reflexivity.
  - intros i j o p Hi Hj Hlacks. split.
    + rewrite lookup_map, Hj. reflexivity.
    + eexists. split.
      * rewrite !lookup_map, Hi. reflexivity.
      * unfold make_row. rewrite lookup_map, list_lookup_imap, lookup_map, Hj.
        cbn [fmap option_fmap option_map].
        rewrite dict_get_None.
        { by destruct (is_float_column _). }
        intros v Hv. by apply nested_to_record_spec, Hlacks in Hv.
Qed.

(** Bitcoin has no [platform] block, Tether has one: Bitcoin's row is empty
    in the [platform_name] column. *)
Lemma missing_field_is_empty_string_witness :
  exists df,
    flattener (JArr (map JObj [Sample.bitcoin; Sample.tether])) = Ok df
    /\ df_columns df !! 7 = Some "platform_name"
    /\ exists row, df_rows df !! 0 = Some row /\ row !! 7 = Some (JStr "").
Proof.
  eexists. split; [reflexivity|].
  refine (proj2 (missing_field_is_empty_string
                   [Sample.bitcoin; Sample.tether] _ eq_refl)
            0 7 Sample.bitcoin "platform.name" eq_refl eq_refl _).
  intros v Hv. apply nested_to_record_spec in Hv. vm_compute in Hv.
  repeat (apply elem_of_cons in Hv as [Hv|Hv]; [discriminate Hv|]).
  by apply elem_of_nil in Hv.
Defined.

End Flattener.

(** ** The warehouse load *)

Section WarehouseLoad.

Context (ds tbl : string) (schema : Schema) (csv : list (list json)).

Lemma dataset_create_lookup (w : Warehouse) :
  is_Some (dataset_create ds w !! ds).
Proof.
  unfold dataset_create. destruct (w !! ds) as [tables|] eqn:E.
  - rewrite E. by eexists.
  - rewrite lookup_insert_eq. by eexists.
Qed.

(** Creating with [overwrite = True] always succeeds where the dataset is. *)
Lemma table_create_overwrite (w : Warehouse) (tables : gmap string Table) :
  w !! ds = Some tables ->
  table_create ds tbl schema true w
  = Some (<[ds := <[tbl := {| tbl_schema := schema; tbl_rows := [] |}]>
                    (delete tbl tables)]> w).
Proof.
  intros E. unfold table_create. rewrite E.
  destruct (tables !! tbl) eqn:Et; [reflexivity|].
  by rewrite delete_id.
Qed.

(** The table after an append load into a freshly created table. *)
Lemma table_of_load_into_fresh (w : Warehouse) (tables : gmap string Table) :
  table_of ds tbl
    (table_load ds tbl (Some (FCsv csv)) append 1
       (<[ds := <[tbl := {| tbl_schema := schema; tbl_rows := [] |}]>
                  (delete tbl tables)]> w))
  = Some {| tbl_schema := schema; tbl_rows := drop 1 csv |}.
Proof.
  unfold table_load, table_of.
  rewrite alter_insert_eq, alter_insert_eq. cbn [add_rows tbl_schema tbl_rows app].
  by rewrite lookup_insert_eq, lookup_insert_eq.
Qed.

(** Whatever the warehouse held before: after the dataset is ensured,
    creating the table with [overwrite = True] succeeds, and loading a CSV
    into it in append mode (skipping the header line) gives the same
    warehouse as the single [replaceTableContents]; the table then holds the
    new schema and exactly the data lines of that CSV. *)
Lemma create_overwrite_then_append_is_replace (w0 : Warehouse) :
  let w := dataset_create ds w0 in
  exists w1,
    table_create ds tbl schema true w = Some w1
    /\ Some (table_load ds tbl (Some (FCsv csv)) append 1 w1)
       = replaceTableContents ds tbl schema csv w
    /\ table_of ds tbl (table_load ds tbl (Some (FCsv csv)) append 1 w1)
       = Some {| tbl_schema := schema; tbl_rows := drop 1 csv |}.
Proof.
  intros w. destruct (dataset_create_lookup w0) as [tables E]. fold w in E.
  eexists. split; [by apply table_create_overwrite|].
  unfold table_load, replaceTableContents, table_of. rewrite E.
  rewrite alter_insert_eq, alter_insert_eq. cbn [add_rows tbl_schema tbl_rows app].
  split; [reflexivity|].
  by rewrite lookup_insert_eq, lookup_insert_eq.
Qed.

End WarehouseLoad.

(** ** Query 1 *)

Section Query1.

Lemma coins_gt_8k_count (t : list coin_data_row) :
  coins_gt_8k t = length (List.filter (fun r => price_gt_8000 r && named r) t).
Proof.
  unfold coins_gt_8k, sql_count, sql_where.
  induction t as [|r t IH]; [reflexivity|].
  cbn [List.filter]. unfold price_gt_8000, named, sql_gt in *.
  destruct (quote_usd_price r) as [x|]; cbn [option_map andb]; [|exact IH].
  destruct (PrimFloat.ltb 8000 x); cbn [andb]; [|exact IH].
  cbn [List.filter]. destruct (name r); cbn [length]; [f_equal|]; exact IH.
Qed.

Lemma coins_gt_8k_app (t1 t2 : list coin_data_row) :
  coins_gt_8k (t1 ++ t2) = coins_gt_8k t1 + coins_gt_8k t2.
Proof. rewrite !coins_gt_8k_count, List.filter_app, length_app. reflexivity. Qed.

(** Query 1 counts names: a row without one is not counted, whatever its
    price, so the result is not the number of rows priced above 8000. *)
Lemma coins_gt_8k_skips_nameless_rows :
  price_gt_8000 Sample.nameless = true
  /\ length (List.filter price_gt_8000 [Sample.nameless]) = 1
  /\ coins_gt_8k [Sample.nameless] = 0.
Proof. repeat split. Qed.

(** C8, amended.  Query 1 returns the number of rows whose name is not NULL
    and whose price is strictly greater than 8000.  In every table a row
    priced exactly 8000 is left out and a named row priced 8000.01 is
    counted; over named rows priced 100, 9000, 8000.01 and 7999 the result
    is 2. *)
Theorem coins_gt_8k_counts_named_rows_above_8000 :
  (forall t, coins_gt_8k t
             = length (List.filter (fun r => price_gt_8000 r && named r) t))
  /\ (forall t1 t2 r,
        quote_usd_price r = Some 8000%float ->
        coins_gt_8k (t1 ++ r :: t2) = coins_gt_8k (t1 ++ t2))
  /\ (forall t1 t2 r,
        quote_usd_price r = Some 8000.01%float -> named r = true ->
        coins_gt_8k (t1 ++ r :: t2) = S (coins_gt_8k (t1 ++ t2)))
  /\ coins_gt_8k Sample.four_rows = 2.
Proof.
  split; [exact coins_gt_8k_count|]. split; [|split; [|reflexivity]].
  - intros t1 t2 r Hp. change (r :: t2) with ([r] ++ t2).
    rewrite !coins_gt_8k_app, (coins_gt_8k_count [r]).
    cbn [List.filter]. unfold price_gt_8000. rewrite Hp. reflexivity.
  - intros t1 t2 r Hp Hn. change (r :: t2) with ([r] ++ t2).
    rewrite !coins_gt_8k_app, (coins_gt_8k_count [r]).
    cbn [List.filter]. unfold price_gt_8000. rewrite Hp, Hn. cbn. lia.
Qed.

(** A table with a row priced 8000 and a named row priced 8000.01. *)
Lemma coins_gt_8k_counts_named_rows_above_8000_witness :
  coins_gt_8k ([] ++ Sample.priced "tie" 8000 :: Sample.four_rows)
  = coins_gt_8k ([] ++ Sample.four_rows)
  /\ coins_gt_8k ([] ++ Sample.priced "c" 8000.01 :: [])
     = S (coins_gt_8k ([] ++ [])).
Proof.
  split.
  - exact (proj1 (proj2 coins_gt_8k_counts_named_rows_above_8000)
             [] Sample.four_rows (Sample.priced "tie" 8000) eq_refl).
  - exact (proj1 (proj2 (proj2 coins_gt_8k_counts_named_rows_above_8000))
             [] [] (Sample.priced "c" 8000.01) eq_refl eq_refl).
Defined.

End Query1.

(** ** Runs *)

Section Runs.

Implicit Types (st : State) (env : Env) (w : World) (cs : list cell).

(** *** The primitives, field by field *)

Lemma logging_info_eq msg args st :
  logging_info msg args st = emit (ALog INFO msg args) st.
Proof. reflexivity. Qed.

Lemma logging_error_eq msg args st :
  logging_error msg args st
  = set_local (<[log_file_name :=
                   FLog (log_records (local st) ++
                         [{| rec_level := ERROR; rec_msg := msg; rec_args := args |}])]>
                 (local st))
      (emit (ALog ERROR msg args) st).
Proof. reflexivity. Qed.

Lemma log_records_insert (l : gmap string file) rs :
  log_records (<[log_file_name := FLog rs]> l) = rs.
Proof. unfold log_records. by rewrite lookup_insert_eq. Qed.

Lemma log_records_delete p (l : gmap string file) rec :
  rec ∈ log_records (delete p l) -> rec ∈ log_records l.
Proof.
  unfold log_records. destruct (decide (p = log_file_name)) as [->|Hne].
  - rewrite lookup_delete_eq. intros H. by apply elem_of_nil in H.
  - by rewrite lookup_delete_ne.
Qed.

Lemma existsb_snoc {A} (f : A -> bool) (l : list A) (a : A) :
  existsb f (l ++ [a]) = existsb f l || f a.
Proof. rewrite existsb_app. cbn. by rewrite orb_false_r. Qed.

Lemma gsutil_cp_trace ok src key st :
  trace (gsutil_cp ok src key st) = trace st ++ [AGsutilCp src (gs_url key)].
Proof. unfold gsutil_cp. cbn. destruct (local st !! src); [destruct ok|]; reflexivity. Qed.

Lemma gsutil_cp_frame ok src key st :
  response (gsutil_cp ok src key st) = response st
  /\ coin_data_schema (gsutil_cp ok src key st) = coin_data_schema st
  /\ local (gsutil_cp ok src key st) = local st
  /\ warehouse (gsutil_cp ok src key st) = warehouse st.
Proof. unfold gsutil_cp. cbn. destruct (local st !! src); [destruct ok|]; done. Qed.

(** A copy never removes an object. *)
Lemma gsutil_cp_keeps ok src key st k :
  is_Some (bucket st !! k) -> is_Some (bucket (gsutil_cp ok src key st) !! k).
Proof.
  intros H. unfold gsutil_cp. cbn.
  destruct (local st !! src); [destruct ok|]; cbn; try done.
  rewrite lookup_insert_is_Some. destruct (decide (key = k)); auto.
Qed.

Lemma rm_f_keeps path st p :
  local (rm_f path st) !! p = None <-> (p = path /\ path <> "") \/ local st !! p = None.
Proof.
  unfold rm_f. destruct (String.eqb path "") eqn:E;
    cbn [local set_local emit].
  - apply String.eqb_eq in E. intuition congruence.
  - apply String.eqb_neq in E. rewrite lookup_delete_None. intuition congruence.
Qed.

(** *** Running lists of cells *)

Lemma run_cells_app cs1 cs2 st :
  run_cells (cs1 ++ cs2) st
  = match run_cells cs1 st with
    | (Done, st') => run_cells cs2 st'
    | stopped => stopped
    end.
Proof.
  revert st. induction cs1 as [|c cs1 IH]; intros st; [reflexivity|].
  cbn [app run_cells]. destruct (c st) as [[|] st']; try reflexivity. apply IH.
Qed.

Lemma run_cells_cons_Done c cs st st' :
  run_cells (c :: cs) st = (Done, st') ->
  exists s, c st = (Done, s) /\ run_cells cs s = (Done, st').
Proof.
  cbn [run_cells]. destruct (c st) as [[|] s]; try discriminate. by exists s.
Qed.

Lemma run_cells_cons_eq c cs st s :
  c st = (Done, s) -> run_cells (c :: cs) st = run_cells cs s.
Proof. intros E. cbn [run_cells]. by rewrite E. Qed.

(** A property that every cell keeps holds at the end of the run, however
    the run ends. *)
Lemma run_cells_invariant (P : State -> Prop) cs :
  Forall (fun c : cell => forall st, P st -> P (c st).2) cs ->
  forall st, P st -> P (run_cells cs st).2.
Proof.
  induction 1 as [|c cs Hc _ IH]; intros st HP; [exact HP|].
  cbn [run_cells]. specialize (Hc st HP).
  destruct (c st) as [[|] s]; cbn [snd] in *; auto.
Qed.

(** *** Cell by cell *)

Ltac cell_unfold :=
  unfold cell_setup, cell_pull_data, cell_save_csv, cell_upload, cell_bigquery,
    cell_log_upload, cell_cleanup, api_call, object_exists, step_4_log,
    logging_basicConfig, rm_f, print, gsutil_cp, kernel_exit.

Ltac state_simpl :=
  rewrite ?logging_info_eq, ?logging_error_eq;
  cbn [response coin_data_schema local bucket warehouse trace
       set_response set_schema set_local set_bucket set_warehouse emit fst snd].

Ltac state_simpl_in H :=
  rewrite ?logging_info_eq, ?logging_error_eq in H;
  cbn [response coin_data_schema local bucket warehouse trace
       set_response set_schema set_local set_bucket set_warehouse emit fst snd] in H.

Ltac cell_cases := cell_unfold; repeat case_match; simplify_eq; state_simpl.

(** What was done stays done: every cell only adds to the trace. *)
Lemma cells_extend_the_trace env (a : action) :
  Forall (fun c : cell => forall st, a ∈ trace st -> a ∈ trace (c st).2) (pipeline env).
Proof.
  unfold pipeline, steps. cbn [app].
  repeat apply Forall_cons_2; try apply Forall_nil_2; intros st H;
    cell_cases; rewrite ?elem_of_app; tauto.
Qed.

(** Nothing is removed before the cleanup cell. *)
Lemma no_cleanup_before_cleanup env :
  Forall (fun c : cell => forall st, cleanup_ran st = false -> cleanup_ran (c st).2 = false)
    (steps env ++ [cell_log_upload env]).
Proof.
  unfold cleanup_ran.
  repeat apply Forall_cons_2; try apply Forall_nil_2; intros st H;
    cell_cases; rewrite ?existsb_snoc, ?H; reflexivity.
Qed.

(** Cell 2 only creates the log file. *)
Lemma cell_setup_frame st :
  bucket (logging_basicConfig st) = bucket st
  /\ trace (logging_basicConfig st) = trace st
  /\ log_records (local (logging_basicConfig st)) = log_records (local st).
Proof.
  unfold logging_basicConfig.
  destruct (local st !! log_file_name) eqn:E; [done|].
  state_simpl. rewrite log_records_insert. unfold log_records. by rewrite E.
Qed.

Lemma cell_pull_data_Done env st st' :
  cell_pull_data env st = (Done, st') ->
  response st' = Some (match http_get env with
                       | Returned r => Some r
                       | RequestException _ => None
                       end).
Proof. intros H. revert H. cell_cases; intros; by simplify_eq. Qed.

(** Cell 6 ends with [Done] only on a response object; after status 200 the
    schema is bound. *)
Lemma cell_save_csv_Done st st' :
  cell_save_csv st = (Done, st') ->
  exists r,
    response st' = Some (Some r)
    /\ (status_code r = 200%Z -> is_Some (coin_data_schema st')).
Proof.
  intros H. revert H. cell_cases; intros; simplify_eq; state_simpl.
  all: eexists; split; [eassumption|]; intros E.
  all: try (by eexists).
  all: rewrite E in *; discriminate.
Qed.

Lemma cell_save_csv_200 st st' r :
  cell_save_csv st = (Done, st') ->
  response st = Some (Some r) -> status_code r = 200%Z ->
  exists body data df,
    text_json r = Some body /\ getitem body "data" = Ok data /\ flattener data = Ok df
    /\ local st' !! local_path = Some (FCsv (to_csv df))
    /\ coin_data_schema st' = Some (schema_from_data df)
    /\ response st' = Some (Some r).
Proof.
  intros H Hr Hs. unfold cell_save_csv in H. rewrite Hr, Hs in H. cbn [Z.eqb Pos.eqb negb] in H.
  destruct (text_json r) as [body|]; [|discriminate].
  destruct (getitem body "data") as [data|] eqn:Hdata; [|discriminate].
  destruct (flattener data) as [df|] eqn:Hdf; [|discriminate].
  injection H as <-. exists body, data, df. state_simpl.
  rewrite lookup_insert_eq. done.
Qed.

(** Cell 8 reads no variable and binds none. *)
Lemma cell_upload_variables env st :
  response (cell_upload env st).2 = response st
  /\ coin_data_schema (cell_upload env st).2 = coin_data_schema st
  /\ warehouse (cell_upload env st).2 = warehouse st.
Proof. cell_cases; done. Qed.

(** Cell 8 runs the copy in whatever state it starts: it looks neither at
    the response nor at what cell 6 did. *)
Lemma cell_upload_is_unconditional env st :
  exists acts, trace (cell_upload env st).2
               = trace st ++ AGsutilCp local_path (gs_url bucket_key) :: acts.
Proof. cell_cases; rewrite <- ?app_assoc; by eexists. Qed.

(** The two ends of cell 8. *)
Lemma cell_upload_object_missing env st :
  let after_copy := gsutil_cp (cp_csv_ok env) local_path bucket_key st in
  bucket after_copy !! bucket_key = None ->
  cell_upload env st
  = (Done,
     kernel_exit 1
       (logging_error "%s was not uploaded to bucket successfully." [JStr csv_file_name]
          (print "File not successfully uploaded to bucket. Issue logged" []
             (emit (AObjectExists bucket_key) after_copy)))).
Proof.
  intros after_copy Hb. unfold cell_upload, object_exists. fold after_copy.
  rewrite bool_decide_eq_false_2 by (rewrite Hb; by intros [? ?]). reflexivity.
Qed.

Lemma cell_upload_object_found env st :
  let after_copy := gsutil_cp (cp_csv_ok env) local_path bucket_key st in
  is_Some (bucket after_copy !! bucket_key) ->
  cell_upload env st
  = (Done, logging_info step_3_complete [] (emit (AObjectExists bucket_key) after_copy)).
Proof.
  intros after_copy Hb. unfold cell_upload, object_exists. fold after_copy.
  rewrite bool_decide_eq_true_2 by done. reflexivity.
Qed.

Lemma cell_upload_copies env st st' f :
  cell_upload env st = (Done, st') ->
  cp_csv_ok env = true -> local st !! local_path = Some f ->
  bucket st' !! bucket_key = Some f.
Proof.
  intros H Hok Hf. unfold cell_upload, object_exists, gsutil_cp in H.
  state_simpl_in H. rewrite Hf, Hok in H. state_simpl_in H.
  rewrite lookup_insert_eq in H.
  rewrite bool_decide_eq_true_2 in H by done. cbn [negb] in H.
  injection H as <-. state_simpl. by rewrite lookup_insert_eq.
Qed.

(** What holds when a run arrives at cell 10. *)
Lemma at_cell_bigquery env w st :
  run_cells [cell_setup; cell_pull_data env; cell_save_csv; cell_upload env]
    (fresh_kernel w) = (Done, st) ->
  exists r,
    response st = Some (Some r)
    /\ (status_code r = 200%Z -> is_Some (coin_data_schema st)).
Proof.
  intros H.
  apply run_cells_cons_Done in H as (s1 & _ & H).
  apply run_cells_cons_Done in H as (s2 & _ & H).
  apply run_cells_cons_Done in H as (s3 & H3 & H).
  apply run_cells_cons_Done in H as (s4 & H4 & H). cbn in H. simplify_eq.
  apply cell_save_csv_Done in H3 as (r & Hr & Hs).
  destruct (cell_upload_variables env s3) as (E1 & E2 & _).
  rewrite H4 in E1, E2. cbn [snd] in *.
  exists r. rewrite E1, E2. done.
Qed.

Lemma cell_bigquery_200 st st' r schema csv :
  cell_bigquery st = (Done, st') ->
  response st = Some (Some r) -> status_code r = 200%Z ->
  coin_data_schema st = Some schema ->
  bucket st !! bucket_key = Some (FCsv csv) ->
  table_of "cryptocurrency" "coin_data" (warehouse st')
  = Some {| tbl_schema := schema; tbl_rows := drop 1 csv |}.
Proof.
  intros H Hr Hs Hschema Hobj.
  unfold cell_bigquery in H. rewrite Hr, Hs in H. cbn [Z.eqb Pos.eqb] in H.
  state_simpl_in H. rewrite Hschema in H.
  destruct (dataset_create_lookup "cryptocurrency" (warehouse st)) as [tables Ht].
  rewrite (table_create_overwrite _ _ _ _ _ Ht) in H. state_simpl_in H.
  rewrite Hobj in H. injection H as <-.
  unfold step_4_log. state_simpl. apply table_of_load_into_fresh.
Qed.

Lemma cell_bigquery_not_200 st r :
  response st = Some (Some r) -> status_code r <> 200%Z ->
  cell_bigquery st = (Done, step_4_log st).
Proof.
  intros Hr Hs. unfold cell_bigquery. rewrite Hr.
  apply Z.eqb_neq in Hs. by rewrite Hs.
Qed.

(** Cells 11 and 12 leave the warehouse alone. *)
Lemma after_cell_bigquery_warehouse env st :
  warehouse (cell_log_upload env st).2 = warehouse st
  /\ warehouse (cell_cleanup env st).2 = warehouse st.
Proof. split; cell_cases; done. Qed.

(** After an answer other than 200 that carries an error message, cell 6
    reports the error and ends normally. *)
Lemma cell_6_after_refusal env w r config uri key body msg :
  w_bucket w !! config_key = Some (FJson config) ->
  config_lookup config "uri" = Ok uri ->
  config_lookup config "key" = Ok key ->
  http_get env = Returned r ->
  status_code r <> 200%Z ->
  text_json r = Some body ->
  error_message body = Ok msg ->
  exists st,
    run_cells [cell_setup; cell_pull_data env; cell_save_csv] (fresh_kernel w) = (Done, st)
    /\ ALog ERROR "Error fetching CoinMarketCap API data. %s" [msg] ∈ trace st
    /\ bucket st = w_bucket w
    /\ response st = Some (Some r).
Proof.
  intros Hcfg Huri Hkey Hget Hs Hbody Hmsg.
  cbn [run_cells]. unfold cell_setup at 1. unfold cell_pull_data at 1.
  rewrite logging_info_eq. state_simpl.
  destruct (cell_setup_frame (fresh_kernel w)) as (Hb & _ & _).
  rewrite Hb. cbn [fresh_kernel bucket]. rewrite Hcfg, Huri, Hkey.
  unfold api_call. rewrite Hget.
  unfold cell_save_csv at 1. rewrite logging_info_eq. state_simpl.
  apply Z.eqb_neq in Hs. rewrite Hs, Hbody, Hmsg. cbn [negb].
  eexists. split; [reflexivity|]. unfold print. state_simpl.
  split; [|split; [exact Hb|reflexivity]].
  rewrite elem_of_app, list_elem_of_singleton. by right.
Qed.

(** *** What no run does *)

(** Without a 200 answer the warehouse is never touched. *)
Lemma run_without_200_leaves_the_warehouse_alone env w :
  (forall r, http_get env = Returned r -> status_code r <> 200%Z) ->
  warehouse (run_all env w).2 = w_warehouse w
  /\ warehouse_ran (run_all env w).2 = false.
Proof.
  intros Hstatus.
  pose (I := fun st =>
    (warehouse st = w_warehouse w /\ warehouse_ran st = false)
    /\ forall r, response st = Some (Some r) -> status_code r <> 200%Z).
  enough (HI : I (run_all env w).2) by apply HI.
  unfold run_all. apply (run_cells_invariant I); [|by repeat split].
  unfold pipeline, steps, I, warehouse_ran. cbn [app].
  repeat apply Forall_cons_2; try apply Forall_nil_2;
    intros st [[Hw Ht] Hr]; cell_cases; rewrite ?existsb_snoc, ?Ht;
    repeat split; try done.
  all: try (intros r0 Hr0; apply Hr; congruence).
  all: try (intros r0 [= <-]; apply Hstatus; congruence).
  all: exfalso;
    match goal with
    | H : (status_code ?r =? 200)%Z = true |- _ =>
        apply Z.eqb_eq in H; apply (Hr r); [congruence|exact H]
    end.
Qed.

(** X1.  After a [RequestException], and after any answer other than 200,
    no warehouse call is made and the warehouse is as it was before the
    run. *)
Theorem no_warehouse_call_without_200 env w :
  (forall e, http_get env = RequestException e ->
     warehouse (run_all env w).2 = w_warehouse w
     /\ warehouse_ran (run_all env w).2 = false)
  /\ (forall r, http_get env = Returned r -> status_code r <> 200%Z ->
     warehouse (run_all env w).2 = w_warehouse w
     /\ warehouse_ran (run_all env w).2 = false).
Proof.
  split.
  - intros e He. apply run_without_200_leaves_the_warehouse_alone.
    intros r Hr. rewrite He in Hr. discriminate.
  - intros r Hr Hs. apply run_without_200_leaves_the_warehouse_alone.
    intros r' Hr'. rewrite Hr in Hr'. by injection Hr' as <-.
Qed.

(** The API refuses the key: the table of the earlier run is still there. *)
Lemma no_warehouse_call_without_200_witness :
  warehouse (run_all Sample.key_refused Sample.later_run).2
  = w_warehouse Sample.later_run
  /\ warehouse_ran (run_all Sample.key_refused Sample.later_run).2 = false.
Proof.
  apply (proj2 (no_warehouse_call_without_200 Sample.key_refused Sample.later_run)
           Sample.unauthorized eq_refl).
  vm_compute. discriminate.
Defined.

(** X2.  No run writes an INFO record: whatever a run leaves in the local
    log file was there before, or is an ERROR record.  The start marker, the
    step completions and the end marker never reach the file. *)
Lemma run_writes_only_error_records env w rec :
  rec ∈ log_records (local (run_all env w).2) ->
  rec ∈ log_records (w_local w) \/ rec_level rec = ERROR.
Proof.
  pose (I := fun st => forall rec, rec ∈ log_records (local st) ->
                       rec ∈ log_records (w_local w) \/ rec_level rec = ERROR).
  enough (HI : I (run_all env w).2) by apply HI.
  unfold run_all. apply (run_cells_invariant I); [|intros ?; by left].
  unfold pipeline, steps, I. cbn [app].
  repeat apply Forall_cons_2; try apply Forall_nil_2;
    intros st HI rec'; cell_cases; rewrite ?log_records_insert; try apply HI.
  all: try (rewrite elem_of_app, list_elem_of_singleton;
            intros [?| ->]; [by apply HI|by right]).
  all: try (intros Hrec; by apply elem_of_nil in Hrec).
  all: try (intros Hrec; apply HI; repeat apply log_records_delete in Hrec; exact Hrec).
  all: unfold log_records; rewrite lookup_insert_ne by done; apply HI.
Qed.

(** The failed upload check leaves its ERROR record, and nothing else. *)
Lemma run_writes_only_error_records_witness :
  upload_failed ∈ log_records (local (run_all Cases.lost_copy Sample.first_run).2)
  /\ (upload_failed ∈ log_records (w_local Sample.first_run)
      \/ rec_level upload_failed = ERROR).
Proof.
  assert (H : upload_failed
              ∈ log_records (local (run_all Cases.lost_copy Sample.first_run).2))
    by (vm_compute; repeat constructor).
  split; [exact H|].
  exact (run_writes_only_error_records Cases.lost_copy Sample.first_run upload_failed H).
Defined.

(** *** A complete run after a 200 answer *)

(** X3.  The full refresh, end to end.  A run that ends normally after a
    200 answer, with the copy getting through, leaves in
    [cryptocurrency.coin_data] the schema and exactly the rows of the frame
    that this run made from the answer, whatever the table, the bucket and
    the local disk held before. *)
Lemma completed_run_after_200_refreshes_the_table env w st r :
  run_all env w = (Done, st) ->
  http_get env = Returned r -> status_code r = 200%Z -> cp_csv_ok env = true ->
  exists body data df,
    text_json r = Some body /\ getitem body "data" = Ok data /\ flattener data = Ok df
    /\ table_of "cryptocurrency" "coin_data" (warehouse st)
       = Some {| tbl_schema := schema_from_data df; tbl_rows := df_rows df |}.
Proof.
  intros H Hget Hs Hok. unfold run_all, pipeline, steps in H. cbn [app] in H.
  apply run_cells_cons_Done in H as (s1 & _ & H).
  apply run_cells_cons_Done in H as (s2 & H2 & H).
  apply run_cells_cons_Done in H as (s3 & H3 & H).
  apply run_cells_cons_Done in H as (s4 & H4 & H).
  apply run_cells_cons_Done in H as (s5 & H5 & H).
  apply run_cells_cons_Done in H as (s6 & H6 & H).
  apply run_cells_cons_Done in H as (s7 & H7 & H). cbn in H. simplify_eq.
  apply cell_pull_data_Done in H2. rewrite Hget in H2.
  destruct (cell_save_csv_200 _ _ _ H3 H2 Hs)
    as (body & data & df & Hbody & Hdata & Hdf & Hcsv & Hschema & Hr).
  exists body, data, df. repeat split; try done.
  pose proof (cell_upload_copies _ _ _ _ H4 Hok Hcsv) as Hobj.
  destruct (cell_upload_variables env s3) as (E1 & E2 & _).
  rewrite H4 in E1, E2. cbn [snd] in E1, E2. rewrite Hr in E1. rewrite Hschema in E2.
  pose proof (cell_bigquery_200 _ _ _ _ _ H5 E1 Hs E2 Hobj) as Htable.
  destruct (after_cell_bigquery_warehouse env s5) as [W6 _].
  destruct (after_cell_bigquery_warehouse env s6) as [_ W7].
  rewrite H6 in W6. rewrite H7 in W7. cbn [snd] in W6, W7.
  rewrite W7, W6. exact Htable.
Qed.

(** A first run that goes through. *)
Lemma completed_run_after_200_refreshes_the_table_witness :
  exists df,
    flattener (JArr [JObj Sample.bitcoin; JObj Sample.tether]) = Ok df
    /\ table_of "cryptocurrency" "coin_data"
         (warehouse (run_all Sample.copy_works Sample.first_run).2)
       = Some {| tbl_schema := schema_from_data df; tbl_rows := df_rows df |}.
Proof.
  assert (H : run_all Sample.copy_works Sample.first_run
              = (Done, (run_all Sample.copy_works Sample.first_run).2))
    by (vm_compute; reflexivity).
  destruct (completed_run_after_200_refreshes_the_table
              Sample.copy_works Sample.first_run _ Sample.ok_response
              H eq_refl eq_refl eq_refl)
    as (body & data & df & Hbody & Hdata & Hdf & Htable).
  injection Hbody as <-. vm_compute in Hdata. injection Hdata as <-.
  exists df. split; [exact Hdf|exact Htable].
Defined.

(** Without the copy getting through the table need not hold this run's
    rows: the check of cell 8 asks whether an object exists, not whether it
    is this run's.  Here the API answers well and the copy fails while the
    object of an earlier run is in the bucket: the check passes, the run
    ends normally, and cell 10 loads the old object's row. *)
Lemma failed_copy_over_old_object_loads_old_rows :
  (run_all Sample.copy_fails Sample.later_run).1 = Done
  /\ bucket (run_all Sample.copy_fails Sample.later_run).2 !! bucket_key
     = Some Sample.old_csv
  /\ option_map tbl_rows
       (table_of "cryptocurrency" "coin_data"
          (warehouse (run_all Sample.copy_fails Sample.later_run).2))
     = Some [Sample.old_line]
  /\ option_map tbl_rows
       (table_of "cryptocurrency" "coin_data" (w_warehouse Sample.later_run))
     = Some [Sample.old_line]
  /\ exists df,
       flattener (JArr [JObj Sample.bitcoin; JObj Sample.tether]) = Ok df
       /\ length (df_rows df) = 2.
Proof.
  repeat apply conj; try (vm_compute; reflexivity).
  eexists. split; vm_compute; reflexivity.
Qed.

(** Cells 2 to 8 leave the warehouse alone. *)
Lemma warehouse_before_cell_10 env w :
  warehouse (run_cells [cell_setup; cell_pull_data env; cell_save_csv; cell_upload env]
               (fresh_kernel w)).2
  = w_warehouse w.
Proof.
  apply (run_cells_invariant (fun st => warehouse st = w_warehouse w)); [|reflexivity].
  repeat apply Forall_cons_2; try apply Forall_nil_2; intros st H; cell_cases; exact H.
Qed.

(** C3.  Take a run that reaches cell 10 after a 200 answer, its copy of
    the CSV having got through, whatever the warehouse held before.
    Cell 10 ends normally, and what it does to the warehouse (ensure the
    dataset, create the table over any old one, load in append mode) is the
    single [replaceTableContents] with this run's schema and this run's CSV:
    the table then holds exactly the rows of this run's frame and no row of
    an earlier run, and so it does at the end of the run. *)
Theorem warehouse_cell_replaces_the_table env w st r :
  run_cells [cell_setup; cell_pull_data env; cell_save_csv; cell_upload env]
    (fresh_kernel w) = (Done, st) ->
  http_get env = Returned r -> status_code r = 200%Z -> cp_csv_ok env = true ->
  exists body data df st',
    text_json r = Some body /\ getitem body "data" = Ok data /\ flattener data = Ok df
    /\ bucket st !! bucket_key = Some (FCsv (to_csv df))
    /\ cell_bigquery st = (Done, st')
    /\ Some (warehouse st')
       = replaceTableContents "cryptocurrency" "coin_data" (schema_from_data df)
           (to_csv df) (dataset_create "cryptocurrency" (w_warehouse w))
    /\ table_of "cryptocurrency" "coin_data" (warehouse st')
       = Some {| tbl_schema := schema_from_data df; tbl_rows := df_rows df |}
    /\ (run_all env w).1 = Done
    /\ warehouse (run_all env w).2 = warehouse st'.
Proof.
  intros H Hget Hs Hok.
  pose proof (warehouse_before_cell_10 env w) as Hwh. rewrite H in Hwh. cbn [snd] in Hwh.
  assert (Hrun : run_all env w
                 = run_cells [cell_bigquery; cell_log_upload env; cell_cleanup env] st).
  { unfold run_all, pipeline, steps.
    change ([cell_setup; cell_pull_data env; cell_save_csv; cell_upload env; cell_bigquery]
            ++ [cell_log_upload env; cell_cleanup env])
      with ([cell_setup; cell_pull_data env; cell_save_csv; cell_upload env]
            ++ [cell_bigquery; cell_log_upload env; cell_cleanup env]).
    by rewrite run_cells_app, H. }
  apply run_cells_cons_Done in H as (s1 & _ & H).
  apply run_cells_cons_Done in H as (s2 & H2 & H).
  apply run_cells_cons_Done in H as (s3 & H3 & H).
  apply run_cells_cons_Done in H as (s4 & H4 & H). cbn in H. simplify_eq.
  apply cell_pull_data_Done in H2. rewrite Hget in H2.
  destruct (cell_save_csv_200 _ _ _ H3 H2 Hs)
    as (body & data & df & Hbody & Hdata & Hdf & Hcsv & Hschema & Hr).
  pose proof (cell_upload_copies _ _ _ _ H4 Hok Hcsv) as Hobj.
  destruct (cell_upload_variables env s3) as (E1 & E2 & _).
  rewrite H4 in E1, E2. cbn [snd] in E1, E2. rewrite Hr in E1. rewrite Hschema in E2.
  destruct (create_overwrite_then_append_is_replace "cryptocurrency" "coin_data"
              (schema_from_data df) (to_csv df) (warehouse st))
    as (w1 & Hcreate & Hreplace & Htable).
  assert (Hcell : cell_bigquery st
                  = (Done, step_4_log
                             (set_warehouse
                                (table_load "cryptocurrency" "coin_data"
                                   (Some (FCsv (to_csv df))) append 1 w1)
                                (emit (ATableLoad "cryptocurrency.coin_data" bucket_path append)
                                   (set_warehouse w1
                                      (emit (ATableCreate "cryptocurrency.coin_data" true)
                                         (set_warehouse
                                            (dataset_create "cryptocurrency" (warehouse st))
                                            (emit (ADatasetCreate "cryptocurrency") st)))))))).
  { unfold cell_bigquery. rewrite E1, Hs. cbn [Z.eqb Pos.eqb]. state_simpl.
    rewrite E2. cbv zeta in Hcreate. rewrite Hcreate. state_simpl. by rewrite Hobj. }
  exists body, data, df. eexists.
  split; [done|]. split; [done|]. split; [done|]. split; [exact Hobj|].
  split; [exact Hcell|].
  unfold step_4_log. state_simpl. rewrite <- Hwh.
  split; [exact Hreplace|]. split; [exact Htable|].
  rewrite Hrun, (run_cells_cons_eq _ _ _ _ Hcell).
  cbn [run_cells cell_log_upload cell_cleanup fst snd].
  split; [reflexivity|].
  destruct (after_cell_bigquery_warehouse env
              (gsutil_cp (cp_log_ok env) log_file_name log_bucket_key
                 (step_4_log
                    (set_warehouse
                       (table_load "cryptocurrency" "coin_data"
                          (Some (FCsv (to_csv df))) append 1 w1)
                       (emit (ATableLoad "cryptocurrency.coin_data" bucket_path append)
                          (set_warehouse w1
                             (emit (ATableCreate "cryptocurrency.coin_data" true)
                                (set_warehouse
                                   (dataset_create "cryptocurrency" (warehouse st))
                                   (emit (ADatasetCreate "cryptocurrency") st)))))))))
    as [_ W7].
  cbn [cell_cleanup snd] in W7. rewrite W7.
  destruct (gsutil_cp_frame (cp_log_ok env) log_file_name log_bucket_key
              (step_4_log
                 (set_warehouse
                    (table_load "cryptocurrency" "coin_data"
                       (Some (FCsv (to_csv df))) append 1 w1)
                    (emit (ATableLoad "cryptocurrency.coin_data" bucket_path append)
                       (set_warehouse w1
                          (emit (ATableCreate "cryptocurrency.coin_data" true)
                             (set_warehouse
                                (dataset_create "cryptocurrency" (warehouse st))
                                (emit (ADatasetCreate "cryptocurrency") st))))))))
    as (_ & _ & _ & W6).
  rewrite W6. unfold step_4_log. by state_simpl.
Qed.

(** A later run that goes through: the row of the earlier run is gone. *)
Lemma warehouse_cell_replaces_the_table_witness :
  exists df,
    flattener (JArr [JObj Sample.bitcoin; JObj Sample.tether]) = Ok df
    /\ table_of "cryptocurrency" "coin_data"
         (warehouse (run_all Sample.copy_works Sample.later_run).2)
       = Some {| tbl_schema := schema_from_data df; tbl_rows := df_rows df |}
    /\ Sample.old_line ∉ df_rows df.
Proof.
  assert (H : run_cells [cell_setup; cell_pull_data Sample.copy_works; cell_save_csv;
                         cell_upload Sample.copy_works]
                (fresh_kernel Sample.later_run)
              = (Done, (run_cells [cell_setup; cell_pull_data Sample.copy_works;
                                   cell_save_csv; cell_upload Sample.copy_works]
                          (fresh_kernel Sample.later_run)).2))
    by (vm_compute; reflexivity).
  destruct (warehouse_cell_replaces_the_table
              Sample.copy_works Sample.later_run _ Sample.ok_response
              H eq_refl eq_refl eq_refl)
    as (body & data & df & st' & Hbody & Hdata & Hdf & _ & _ & _ & Htable & _ & Hend).
  injection Hbody as <-. vm_compute in Hdata. injection Hdata as <-.
  exists df. split; [exact Hdf|]. split; [by rewrite Hend|].
  vm_compute in Hdf. injection Hdf as <-. intros Hin.
  repeat (apply elem_of_cons in Hin as [Hin|Hin]; [discriminate Hin|]).
  by apply elem_of_nil in Hin.
Defined.

(** *** The fetch and what follows it (cells 2 to 8) *)

(** C1.  Let the API answer with a status other than 200 and an error
    message, in a run whose configuration object is in place.  The error is
    logged and the warehouse is left alone, but the run does not stop: cell 8
    still copies to the bucket, and when an object is there (that of an
    earlier run) the check passes, cell 8 makes its step-3 call and the
    whole run ends normally. *)
Theorem failed_fetch_does_not_stop_the_upload_cell
    env w r config uri key body msg :
  w_bucket w !! config_key = Some (FJson config) ->
  config_lookup config "uri" = Ok uri ->
  config_lookup config "key" = Ok key ->
  http_get env = Returned r ->
  status_code r <> 200%Z ->
  text_json r = Some body ->
  error_message body = Ok msg ->
  ALog ERROR "Error fetching CoinMarketCap API data. %s" [msg] ∈ trace (run_all env w).2
  /\ AGsutilCp local_path (gs_url bucket_key) ∈ trace (run_all env w).2
  /\ warehouse_ran (run_all env w).2 = false
  /\ (is_Some (w_bucket w !! bucket_key) ->
      (run_all env w).1 = Done
      /\ ALog INFO step_3_complete [] ∈ trace (run_all env w).2).
Proof.
  intros Hcfg Huri Hkey Hget Hs Hbody Hmsg.
  destruct (cell_6_after_refusal _ _ _ _ _ _ _ _ Hcfg Huri Hkey Hget Hs Hbody Hmsg)
    as (st & Hrun & Herr & Hbucket & Hresp).
  assert (Hrest : run_all env w
                  = run_cells [cell_upload env; cell_bigquery;
                               cell_log_upload env; cell_cleanup env] st).
  { unfold run_all, pipeline, steps.
    change ([cell_setup; cell_pull_data env; cell_save_csv; cell_upload env; cell_bigquery]
            ++ [cell_log_upload env; cell_cleanup env])
      with ([cell_setup; cell_pull_data env; cell_save_csv]
            ++ [cell_upload env; cell_bigquery; cell_log_upload env; cell_cleanup env]).
    by rewrite run_cells_app, Hrun. }
  pose proof (cells_extend_the_trace env) as Hgrow.
  unfold pipeline, steps in Hgrow. cbn [app] in Hgrow.
  assert (Hfrom8 : forall a,
            Forall (fun c : cell => forall st, a ∈ trace st -> a ∈ trace (c st).2)
              [cell_upload env; cell_bigquery; cell_log_upload env; cell_cleanup env]).
  { intros a. specialize (Hgrow a). by do 3 apply Forall_cons_1 in Hgrow as [_ Hgrow]. }
  assert (Hfrom10 : forall a,
            Forall (fun c : cell => forall st, a ∈ trace st -> a ∈ trace (c st).2)
              [cell_bigquery; cell_log_upload env; cell_cleanup env]).
  { intros a. specialize (Hfrom8 a). by apply Forall_cons_1 in Hfrom8 as [_ ?]. }
  split; [|split; [|split]].
  - rewrite Hrest. by apply (run_cells_invariant _ _ (Hfrom8 _)).
  - rewrite Hrest. cbn [run_cells].
    destruct (cell_upload_is_unconditional env st) as [acts Hacts].
    assert (Hcp : AGsutilCp local_path (gs_url bucket_key) ∈ trace (cell_upload env st).2).
    { rewrite Hacts, elem_of_app, elem_of_cons. tauto. }
    destruct (cell_upload env st) as [[|] s4]; cbn [snd] in *; try exact Hcp.
    by apply (run_cells_invariant _ _ (Hfrom10 _)).
  - apply run_without_200_leaves_the_warehouse_alone.
    intros r' Hr'. rewrite Hget in Hr'. by injection Hr' as <-.
  - intros Hobj. rewrite <- Hbucket in Hobj.
    pose proof (cell_upload_object_found env st
                  (gsutil_cp_keeps _ _ _ _ _ Hobj)) as Hc.
    destruct (cell_upload_variables env st) as (E1 & _ & _).
    rewrite Hc in E1. cbn [snd] in E1. rewrite Hresp in E1.
    rewrite Hrest, (run_cells_cons_eq _ _ _ _ Hc). split.
    + by rewrite (run_cells_cons_eq _ _ _ _ (cell_bigquery_not_200 _ _ E1 Hs)).
    + apply (run_cells_invariant _ _ (Hfrom10 (ALog INFO step_3_complete []))).
      state_simpl. rewrite elem_of_app, list_elem_of_singleton. by right.
Qed.

(** The API refuses the key while the object of an earlier run is in the
    bucket: the run ends normally, with the copy made and the old table
    untouched. *)
Lemma failed_fetch_does_not_stop_the_upload_cell_witness :
  (run_all Sample.key_refused Sample.later_run).1 = Done
  /\ upload_ran (run_all Sample.key_refused Sample.later_run).2 = true
  /\ warehouse_ran (run_all Sample.key_refused Sample.later_run).2 = false.
Proof.
  destruct (failed_fetch_does_not_stop_the_upload_cell
              Sample.key_refused Sample.later_run Sample.unauthorized Sample.config
              (JStr "https://pro-api.coinmarketcap.com/v1/cryptocurrency/listings/latest")
              (JStr "secret") Sample.error_body (JStr "This API Key is invalid."))
    as (_ & _ & Hw & Hdone); try (vm_compute; reflexivity).
  { vm_compute. discriminate. }
  split; [|split; [|exact Hw]].
  - apply Hdone. vm_compute. by eexists.
  - vm_compute. reflexivity.
Defined.

(** C4.  Let the GET raise a [RequestException] with message [e], in a run
    whose configuration object is in place.  [api_call] catches it: it prints
    [e] and returns [None], whatever the state.  The run still makes the
    step-1 call, and ends in cell 6 with an uncaught [AttributeError], since
    [None] has no [status_code]; what was done up to there is listed, and the
    log file holds no record of the failure. *)
Theorem request_exception_is_caught_then_cell_6_raises
    e (cp_csv cp_log : bool) (shell : string -> string) w config uri key :
  let env := {| http_get := RequestException e; cp_csv_ok := cp_csv;
                cp_log_ok := cp_log; bash_env := shell |} in
  w_bucket w !! config_key = Some (FJson config) ->
  config_lookup config "uri" = Ok uri ->
  config_lookup config "key" = Ok key ->
  (forall st, api_call env uri key st = (None, print e [] (emit (AHttpGet uri key) st)))
  /\ exists st',
       run_all env w = (Raised AttributeError, st')
       /\ trace st' = [ALog INFO "############### SCRIPT START ###############" [];
                       AGcsRead config_key;
                       AHttpGet uri key;
                       APrint e [];
                       ALog INFO "Step 1 - Pull CoinMarketCap API data - Complete" []]
       /\ log_records (local st') = log_records (w_local w).
Proof.
  intros env Hcfg Huri Hkey. split; [reflexivity|].
  unfold run_all, pipeline, steps. cbn [app run_cells].
  unfold cell_setup at 1. unfold cell_pull_data at 1.
  rewrite logging_info_eq. state_simpl.
  destruct (cell_setup_frame (fresh_kernel w)) as (Hb & Ht & Hl).
  rewrite Hb. cbn [fresh_kernel bucket]. rewrite Hcfg, Huri, Hkey.
  cbn [api_call http_get env]. unfold cell_save_csv at 1.
  rewrite logging_info_eq. unfold print. state_simpl.
  eexists. split; [reflexivity|]. state_simpl. rewrite Ht.
  split; [reflexivity|exact Hl].
Qed.

(** The sample configuration with a refused connection. *)
Lemma request_exception_is_caught_then_cell_6_raises_witness :
  (run_all Sample.no_network Sample.later_run).1 = Raised AttributeError.
Proof.
  destruct (request_exception_is_caught_then_cell_6_raises
              "Connection refused" true true Sample.bash_sees_names Sample.later_run
              Sample.config
              (JStr "https://pro-api.coinmarketcap.com/v1/cryptocurrency/listings/latest")
              (JStr "secret")) as (_ & st' & Hrun & _).
  - vm_compute. reflexivity.
  - vm_compute. reflexivity.
  - vm_compute. reflexivity.
  - change (run_all Sample.no_network Sample.later_run) with
      (run_all {| http_get := RequestException "Connection refused"; cp_csv_ok := true;
                  cp_log_ok := true; bash_env := Sample.bash_sees_names |}
         Sample.later_run).
    rewrite Hrun. reflexivity.
Defined.

(** *** The upload check (cell 8) *)

(** With status 200 and no object at the key, cell 10 still creates the
    table over the old one; the load finds nothing to load. *)
Lemma cell_bigquery_without_object st r schema :
  response st = Some (Some r) -> status_code r = 200%Z ->
  coin_data_schema st = Some schema ->
  bucket st !! bucket_key = None ->
  exists st',
    cell_bigquery st = (Done, st')
    /\ warehouse_ran st' = true
    /\ table_of "cryptocurrency" "coin_data" (warehouse st')
       = Some {| tbl_schema := schema; tbl_rows := [] |}.
Proof.
  intros Hr Hs Hschema Hobj.
  unfold cell_bigquery. rewrite Hr, Hs. cbn [Z.eqb Pos.eqb].
  state_simpl. rewrite Hschema.
  destruct (dataset_create_lookup "cryptocurrency" (warehouse st)) as [tables Ht].
  rewrite (table_create_overwrite _ _ _ _ _ Ht). state_simpl. rewrite Hobj.
  eexists. split; [reflexivity|]. unfold step_4_log, warehouse_ran. state_simpl. split.
  - rewrite !existsb_app. cbn. by rewrite !orb_true_r.
  - unfold table_load, table_of. by rewrite lookup_insert_eq, lookup_insert_eq.
Qed.

(** C2.  Take any state in which cell 8 starts, and look at the bucket after
    the copy.  If the object is not there, the cell prints the failure,
    writes the error record to the log file and calls [exit(1)]; in the
    kernel that call raises nothing, so the cell ends normally and the run
    goes on with the next cell: after a 200 answer cell 10 makes its
    warehouse calls and leaves the table empty.  If the object is there, the
    cell ends normally after the call
    [logging.info('Step 3 - ... - Complete')] and the run goes on; that call
    is below the logger's level, and the log file stays as it was. *)
Theorem upload_check_outcomes env st :
  let after_copy := gsutil_cp (cp_csv_ok env) local_path bucket_key st in
  (bucket after_copy !! bucket_key = None ->
     exists st',
       cell_upload env st = (Done, st')
       /\ trace st' = trace st ++ [AGsutilCp local_path (gs_url bucket_key);
                                   AObjectExists bucket_key;
                                   APrint "File not successfully uploaded to bucket. Issue logged" [];
                                   ALog ERROR "%s was not uploaded to bucket successfully."
                                     [JStr csv_file_name];
                                   AExit 1]
       /\ log_records (local st') = log_records (local st) ++ [upload_failed]
       /\ (forall rest, run_cells (cell_upload env :: rest) st = run_cells rest st')
       /\ (forall r schema,
             response st = Some (Some r) -> status_code r = 200%Z ->
             coin_data_schema st = Some schema ->
             exists st'',
               cell_bigquery st' = (Done, st'')
               /\ warehouse_ran st'' = true
               /\ table_of "cryptocurrency" "coin_data" (warehouse st'')
                  = Some {| tbl_schema := schema; tbl_rows := [] |}))
  /\ (is_Some (bucket after_copy !! bucket_key) ->
     exists st',
       cell_upload env st = (Done, st')
       /\ trace st' = trace st ++ [AGsutilCp local_path (gs_url bucket_key);
                                   AObjectExists bucket_key;
                                   ALog INFO step_3_complete []]
       /\ local st' = local st
       /\ forall rest, run_cells (cell_upload env :: rest) st = run_cells rest st').
Proof.
  intros after_copy.
  assert (Hloc : local after_copy = local st) by apply gsutil_cp_frame.
  assert (Hresp : response after_copy = response st) by apply gsutil_cp_frame.
  assert (Hsch : coin_data_schema after_copy = coin_data_schema st)
    by apply gsutil_cp_frame.
  assert (Htr : trace after_copy = trace st ++ [AGsutilCp local_path (gs_url bucket_key)])
    by apply gsutil_cp_trace.
  split; intros Hb.
  - pose proof (cell_upload_object_missing env st Hb) as Hcell.
    fold after_copy in Hcell. eexists. split; [exact Hcell|].
    split; [|split; [|split]].
    + unfold kernel_exit, print. state_simpl. by rewrite Htr, <- !app_assoc.
    + unfold kernel_exit, print. state_simpl. by rewrite log_records_insert, Hloc.
    + intros rest. cbn [run_cells]. by rewrite Hcell.
    + intros r schema Hr Hs Hschema.
      apply (cell_bigquery_without_object _ r schema); try done;
        unfold kernel_exit, print; state_simpl; congruence.
  - pose proof (cell_upload_object_found env st Hb) as Hcell.
    fold after_copy in Hcell. eexists. split; [exact Hcell|].
    split; [|split].
    + state_simpl. by rewrite Htr, <- !app_assoc.
    + state_simpl. exact Hloc.
    + intros rest. cbn [run_cells]. by rewrite Hcell.
Qed.

(** A first run with the CSV saved.  The copy fails: the cell ends normally
    all the same, the whole run ends normally, and the warehouse calls were
    made.  The copy gets through: no step-3 record is in the log file. *)
Lemma upload_check_outcomes_witness :
  (exists st',
     cell_upload Sample.copy_fails Sample.csv_saved = (Done, st')
     /\ AExit 1 ∈ trace st'
     /\ (run_all Sample.copy_fails Sample.first_run).1 = Done
     /\ warehouse_ran (run_all Sample.copy_fails Sample.first_run).2 = true)
  /\ (exists st',
        cell_upload Sample.copy_works Sample.csv_saved = (Done, st')
        /\ in_log step_3_complete (log_records (local st')) = false).
Proof.
  split.
  - assert (H : bucket (gsutil_cp (cp_csv_ok Sample.copy_fails) local_path bucket_key
                          Sample.csv_saved) !! bucket_key = None)
      by (vm_compute; reflexivity).
    destruct (proj1 (upload_check_outcomes _ _) H) as (st' & Hc & Ht & _).
    exists st'. split; [exact Hc|]. split.
    + rewrite Ht, elem_of_app. right. repeat constructor.
    + split; vm_compute; reflexivity.
  - assert (H : is_Some (bucket (gsutil_cp (cp_csv_ok Sample.copy_works) local_path
                                   bucket_key Sample.csv_saved) !! bucket_key))
      by (vm_compute; eexists; reflexivity).
    destruct (proj2 (upload_check_outcomes _ _) H) as (st' & Hc & _ & Hl & _).
    exists st'. split; [exact Hc|]. rewrite Hl. vm_compute. reflexivity.
Defined.

(** *** The warehouse cell (cell 10) *)

(** C10.  Take any run that arrives at cell 10.  The cell ends normally,
    and the last two things it does are the calls
    [logging.info('Step 4 - ... - Complete')] and [logging.info] of the end
    marker, whatever the status: when the status is not 200 they are all the
    cell does, and the warehouse is left alone.  Both calls are below the
    logger's level: the log file is the same after the cell as before. *)
Theorem step_4_calls_are_unconditional_and_unwritten env w st :
  run_cells [cell_setup; cell_pull_data env; cell_save_csv; cell_upload env]
    (fresh_kernel w) = (Done, st) ->
  exists r st',
    response st = Some (Some r)
    /\ cell_bigquery st = (Done, st')
    /\ (exists calls,
          trace st' = trace st ++ calls ++ [ALog INFO step_4_complete [];
                                            ALog INFO script_end []]
          /\ (status_code r <> 200%Z -> calls = []))
    /\ (status_code r <> 200%Z -> warehouse st' = warehouse st)
    /\ local st' = local st.
Proof.
  intros H. apply at_cell_bigquery in H as (r & Hr & Hs).
  exists r. unfold cell_bigquery. rewrite Hr.
  destruct (status_code r =? 200)%Z eqn:E.
  - apply Z.eqb_eq in E. destruct (Hs E) as [schema Hschema].
    state_simpl. rewrite Hschema.
    destruct (dataset_create_lookup "cryptocurrency" (warehouse st)) as [tables Ht].
    rewrite (table_create_overwrite _ _ _ _ _ Ht).
    eexists. split; [done|]. split; [reflexivity|].
    unfold step_4_log. state_simpl. split; [|split; [done|reflexivity]].
    exists [ADatasetCreate "cryptocurrency";
            ATableCreate "cryptocurrency.coin_data" true;
            ATableLoad "cryptocurrency.coin_data" bucket_path append].
    split; [|done]. rewrite <- !app_assoc. reflexivity.
  - apply Z.eqb_neq in E.
    eexists. split; [done|]. split; [reflexivity|].
    unfold step_4_log. state_simpl. split; [|split; reflexivity].
    exists []. split; [|done]. rewrite <- !app_assoc. reflexivity.
Qed.

(** A later run in which the API refuses the key: cell 10 is reached, makes
    its two calls and nothing else, and no record of step 4 is in the log
    file. *)
Lemma step_4_calls_are_unconditional_and_unwritten_witness :
  exists st st',
    run_cells [cell_setup; cell_pull_data Sample.key_refused; cell_save_csv;
               cell_upload Sample.key_refused]
      (fresh_kernel Sample.later_run) = (Done, st)
    /\ cell_bigquery st = (Done, st')
    /\ warehouse st' = warehouse st
    /\ in_log step_4_complete (log_records (local st')) = false.
Proof.
  eexists.
  assert (H : run_cells [cell_setup; cell_pull_data Sample.key_refused; cell_save_csv;
                         cell_upload Sample.key_refused]
                (fresh_kernel Sample.later_run)
              = (Done, (run_cells [cell_setup; cell_pull_data Sample.key_refused;
                                   cell_save_csv; cell_upload Sample.key_refused]
                          (fresh_kernel Sample.later_run)).2))
    by (vm_compute; reflexivity).
  destruct (step_4_calls_are_unconditional_and_unwritten _ _ _ H)
    as (r & st' & Hr & Hc & _ & Hw & Hl).
  exists st'. split; [exact H|]. split; [exact Hc|]. split.
  - apply Hw. vm_compute in Hr. injection Hr as <-. vm_compute. discriminate.
  - rewrite Hl. vm_compute. reflexivity.
Defined.

(** *** The cleanup (cell 12) *)

(** C9.  The cleanup as the notebook runs it.  [%%bash] hands the cell to
    a shell of its own, which has the environment of the kernel and none of
    the notebook's variables: with [local_path] and [log_file_name] unset
    there, both [rm -f] get no operand.  Then no run removes a local file:
    however a run ends, the log file is on the local disk at its end, so is
    the CSV when cell 6 wrote one, and so is every file that was there
    before.  The cleanup cell itself runs on the runs that no exception
    ends, and on no other. *)
Theorem cleanup_removes_no_file env w :
  bash_env env "local_path" = "" -> bash_env env "log_file_name" = "" ->
  let r := run_all env w in
  is_Some (local r.2 !! log_file_name)
  /\ (AToCsv local_path ∈ trace r.2 -> is_Some (local r.2 !! local_path))
  /\ (forall p, is_Some (w_local w !! p) -> is_Some (local r.2 !! p))
  /\ (r.1 = Done -> cleanup_ran r.2 = true)
  /\ (r.1 <> Done -> cleanup_ran r.2 = false).
Proof.
  intros Hp Hl r. subst r.
  assert (Hfiles :
    is_Some (local (run_all env w).2 !! log_file_name)
    /\ (AToCsv local_path ∈ trace (run_all env w).2 ->
        is_Some (local (run_all env w).2 !! local_path))
    /\ (forall p, is_Some (w_local w !! p) -> is_Some (local (run_all env w).2 !! p))).
  { unfold run_all, pipeline, steps. cbn [app].
    rewrite (run_cells_cons_eq cell_setup _ (fresh_kernel w)
               (logging_info "############### SCRIPT START ###############" []
                  (logging_basicConfig (fresh_kernel w))) eq_refl).
    apply (run_cells_invariant (fun st =>
             is_Some (local st !! log_file_name)
             /\ (AToCsv local_path ∈ trace st -> is_Some (local st !! local_path))
             /\ (forall p, is_Some (w_local w !! p) -> is_Some (local st !! p)))).
    - repeat apply Forall_cons_2; try apply Forall_nil_2; intros st (J1 & J2 & J3);
        cell_unfold; rewrite ?Hp, ?Hl; cbn [String.eqb];
        repeat case_match; simplify_eq; state_simpl.
      all: repeat split; try done.
      all: rewrite ?elem_of_app, ?list_elem_of_singleton, ?lookup_insert_is_Some'.
      all: try (intros p Hsome; rewrite ?lookup_insert_is_Some'; auto).
      all: auto.
      all: intuition (try discriminate; auto).
    - rewrite logging_info_eq. unfold logging_basicConfig.
      destruct (local (fresh_kernel w) !! log_file_name) eqn:E; state_simpl.
      + split; [by rewrite E|]. split; [|done].
        cbn [fresh_kernel trace app]. intros H.
        apply list_elem_of_singleton in H. discriminate H.
      + split; [rewrite lookup_insert_eq; by eexists|]. split.
        * cbn [fresh_kernel trace app]. intros H.
          apply list_elem_of_singleton in H. discriminate H.
        * intros p Hsome. rewrite lookup_insert_is_Some'. by right. }
  destruct Hfiles as (F1 & F2 & F3).
  split; [exact F1|]. split; [exact F2|]. split; [exact F3|].
  unfold run_all, pipeline.
  replace (steps env ++ [cell_log_upload env; cell_cleanup env])
    with ((steps env ++ [cell_log_upload env]) ++ [cell_cleanup env])
    by (by rewrite <- app_assoc).
  rewrite run_cells_app.
  pose proof (run_cells_invariant (fun st => cleanup_ran st = false) _
                (no_cleanup_before_cleanup env) (fresh_kernel w) eq_refl) as Hinv.
  destruct (run_cells (steps env ++ [cell_log_upload env]) (fresh_kernel w))
    as [o st] eqn:Hrun.
  cbn [snd] in Hinv.
  destruct o; cbn [run_cells cell_cleanup fst snd]; (split; [|done]);
    [|discriminate].
  intros _. unfold cleanup_ran, rm_f. rewrite Hp, Hl. cbn [String.eqb]. state_simpl.
  rewrite !existsb_app. cbn. by rewrite !orb_true_r.
Qed.

(** On the success path the CSV and the log file are left although the
    cleanup cell ran; so they are on the path of the failed upload check;
    on the fetch-failure path the log file is left. *)
Lemma cleanup_removes_no_file_witness :
  (is_Some (local (run_all Cases.unexported Sample.first_run).2 !! local_path)
   /\ is_Some (local (run_all Cases.unexported Sample.first_run).2 !! log_file_name)
   /\ cleanup_ran (run_all Cases.unexported Sample.first_run).2 = true)
  /\ (is_Some (local (run_all Cases.lost_copy Sample.first_run).2 !! local_path)
      /\ is_Some (local (run_all Cases.lost_copy Sample.first_run).2 !! log_file_name)
      /\ cleanup_ran (run_all Cases.lost_copy Sample.first_run).2 = true)
  /\ is_Some (local (run_all Cases.refused Sample.later_run).2 !! log_file_name).
Proof.
  destruct (cleanup_removes_no_file Cases.unexported Sample.first_run eq_refl eq_refl)
    as (Hlog & Hcsv & _ & Hran & _).
  destruct (cleanup_removes_no_file Cases.lost_copy Sample.first_run eq_refl eq_refl)
    as (Hlog2 & Hcsv2 & _ & Hran2 & _).
  destruct (cleanup_removes_no_file Cases.refused Sample.later_run eq_refl eq_refl)
    as (Hlog' & _).
  split; [|split; [|exact Hlog']].
  - split; [|split; [exact Hlog|]].
    + apply Hcsv. vm_compute. repeat constructor.
    + apply Hran. vm_compute. reflexivity.
  - split; [|split; [exact Hlog2|]].
    + apply Hcsv2. vm_compute. repeat constructor.
    + apply Hran2. vm_compute. reflexivity.
Defined.

(** *** More on how runs go *)

Lemma names_differ :
  bucket_key <> log_bucket_key /\ bucket_key <> config_key
  /\ log_bucket_key <> config_key /\ local_path <> log_file_name.
Proof. repeat split; vm_compute; discriminate. Qed.

(** A property that every cell hands on when it ends normally holds at the
    end of a run that ends normally. *)
Lemma run_cells_Done_invariant (P : State -> Prop) cs :
  Forall (fun c : cell => forall st st', P st -> c st = (Done, st') -> P st') cs ->
  forall st st', P st -> run_cells cs st = (Done, st') -> P st'.
Proof.
  induction 1 as [|c cs Hc _ IH]; intros st st' HP H.
  - cbn in H. by simplify_eq.
  - apply run_cells_cons_Done in H as (s & Hs & H). eauto.
Qed.

(** Cells 2 to 6 do not write to the bucket. *)
Lemma bucket_before_upload env w :
  bucket (run_cells [cell_setup; cell_pull_data env; cell_save_csv] (fresh_kernel w)).2
  = w_bucket w.
Proof.
  apply (run_cells_invariant (fun st => bucket st = w_bucket w)); [|reflexivity].
  repeat apply Forall_cons_2; try apply Forall_nil_2; intros st H; cell_cases; exact H.
Qed.

(** X5.  When the configuration cannot be read (the object is missing, is
    not JSON, or lacks [api.coinMarketCap.uri] or [api.coinMarketCap.key]),
    the run ends in cell 4 with an exception.  When the object is missing it
    is a [NameError]: the failed [%gcs read] raises nothing and binds
    nothing, and [config.decode] reads an unbound name.  All the run has
    done is the start call and the read: no request is sent, [response]
    stays unbound, and the bucket and the warehouse are as they were. *)
Theorem unreadable_config_ends_the_run_before_the_request env w :
  (forall config uri key,
     w_bucket w !! config_key = Some (FJson config) ->
     config_lookup config "uri" = Ok uri ->
     config_lookup config "key" = Ok key -> False) ->
  exists e st,
    run_all env w = (Raised e, st)
    /\ (w_bucket w !! config_key = None -> e = NameError)
    /\ trace st = [ALog INFO script_start []; AGcsRead config_key]
    /\ response st = None
    /\ bucket st = w_bucket w
    /\ warehouse st = w_warehouse w.
Proof.
  intros Hno. unfold run_all, pipeline, steps. cbn [app run_cells].
  unfold cell_setup at 1. unfold cell_pull_data at 1.
  rewrite logging_info_eq. state_simpl.
  destruct (cell_setup_frame (fresh_kernel w)) as (Hb & Ht & _).
  rewrite Hb. cbn [fresh_kernel bucket].
  assert (Hend : forall e, exists st,
            (Raised e, emit (AGcsRead config_key)
                         (emit (ALog INFO "############### SCRIPT START ###############" [])
                            (logging_basicConfig (fresh_kernel w)))) = (Raised e, st)
            /\ trace st = [ALog INFO script_start []; AGcsRead config_key]
            /\ response st = None
            /\ bucket st = w_bucket w
            /\ warehouse st = w_warehouse w).
  { intros e. eexists. split; [reflexivity|]. state_simpl. rewrite Ht, Hb.
    split; [reflexivity|]. unfold logging_basicConfig. case_match; done. }
  assert (Hwith : forall e, (w_bucket w !! config_key = None -> e = NameError) ->
            exists e' st,
              (Raised e, emit (AGcsRead config_key)
                           (emit (ALog INFO "############### SCRIPT START ###############" [])
                              (logging_basicConfig (fresh_kernel w)))) = (Raised e', st)
              /\ (w_bucket w !! config_key = None -> e' = NameError)
              /\ trace st = [ALog INFO script_start []; AGcsRead config_key]
              /\ response st = None
              /\ bucket st = w_bucket w
              /\ warehouse st = w_warehouse w).
  { intros e He. destruct (Hend e) as (st & Heq & Hrest). by exists e, st. }
  destruct (w_bucket w !! config_key) as [[| |config]|] eqn:Hcfg;
    try (apply Hwith; congruence).
  destruct (config_lookup config "uri") as [uri|e1] eqn:Huri;
    [|apply Hwith; congruence].
  destruct (config_lookup config "key") as [key|e2] eqn:Hkey;
    [|apply Hwith; congruence].
  exfalso. eapply Hno; eauto.
Qed.

(** No configuration object at all: [config] is unbound.  A configuration
    without the key: the lookup fails. *)
Lemma unreadable_config_ends_the_run_before_the_request_witness :
  (exists st,
     run_all Sample.copy_works Cases.no_config = (Raised NameError, st)
     /\ request_made st = false)
  /\ (exists st,
        run_all Sample.copy_works Cases.keyless = (Raised KeyError, st)
        /\ request_made st = false).
Proof.
  split.
  - destruct (unreadable_config_ends_the_run_before_the_request
                Sample.copy_works Cases.no_config) as (e & st & Hrun & He & Ht & _).
    { intros config uri key H. vm_compute in H. discriminate H. }
    rewrite (He eq_refl) in Hrun. exists st. split; [exact Hrun|].
    unfold request_made. rewrite Ht. reflexivity.
  - destruct (unreadable_config_ends_the_run_before_the_request
                Sample.copy_works Cases.keyless) as (e & st & Hrun & _ & Ht & _).
    { intros config uri key H _ Hkey. vm_compute in H. injection H as <-.
      vm_compute in Hkey. discriminate Hkey. }
    assert (He : (run_all Sample.copy_works Cases.keyless).1 = Raised KeyError)
      by (vm_compute; reflexivity).
    rewrite Hrun in He. cbn [fst] in He. injection He as ->.
    exists st. split; [exact Hrun|].
    unfold request_made. rewrite Ht. reflexivity.
Defined.

(** The first three cells of a run whose configuration is readable and
    whose GET returns. *)
Lemma after_the_request env w r config uri key :
  w_bucket w !! config_key = Some (FJson config) ->
  config_lookup config "uri" = Ok uri ->
  config_lookup config "key" = Ok key ->
  http_get env = Returned r ->
  exists st,
    run_cells [cell_setup; cell_pull_data env] (fresh_kernel w) = (Done, st)
    /\ response st = Some (Some r)
    /\ coin_data_schema st = None
    /\ trace st = [ALog INFO script_start []; AGcsRead config_key; AHttpGet uri key;
                   ALog INFO step_1_complete []]
    /\ local st = local (logging_basicConfig (fresh_kernel w))
    /\ bucket st = w_bucket w
    /\ warehouse st = w_warehouse w.
Proof.
  intros Hcfg Huri Hkey Hget.
  cbn [run_cells]. unfold cell_setup at 1. unfold cell_pull_data at 1.
  rewrite logging_info_eq. state_simpl.
  destruct (cell_setup_frame (fresh_kernel w)) as (Hb & Ht & _).
  rewrite Hb. cbn [fresh_kernel bucket]. rewrite Hcfg, Huri, Hkey.
  unfold api_call. rewrite Hget. eexists. split; [reflexivity|].
  state_simpl. rewrite Ht, Hb.
  repeat split; try reflexivity.
  all: unfold logging_basicConfig; case_match; reflexivity.
Qed.

Lemma log_records_basicConfig st :
  log_records (local (logging_basicConfig st)) = log_records (local st).
Proof. apply cell_setup_frame. Qed.

(** X6.  An answer other than 200 is reported only if its body carries
    [status.error_message].  When the body is not JSON ([ValueError]) or has
    no such field, the error branch of cell 6 itself raises: nothing is
    printed, no ERROR record is written, and the run ends there, before the
    upload. *)
Theorem error_answer_without_message_is_not_reported env w r config uri key :
  w_bucket w !! config_key = Some (FJson config) ->
  config_lookup config "uri" = Ok uri ->
  config_lookup config "key" = Ok key ->
  http_get env = Returned r ->
  status_code r <> 200%Z ->
  (forall body msg, text_json r = Some body -> error_message body = Ok msg -> False) ->
  exists e st,
    run_all env w = (Raised e, st)
    /\ (text_json r = None -> e = ValueError)
    /\ trace st = [ALog INFO script_start []; AGcsRead config_key; AHttpGet uri key;
                   ALog INFO step_1_complete []]
    /\ log_records (local st) = log_records (w_local w)
    /\ bucket st = w_bucket w
    /\ warehouse st = w_warehouse w.
Proof.
  intros Hcfg Huri Hkey Hget Hs Hno.
  destruct (after_the_request _ _ _ _ _ _ Hcfg Huri Hkey Hget)
    as (st & Hrun & Hr & _ & Ht & Hl & Hb & Hw).
  unfold run_all, pipeline, steps. cbn [app].
  change [cell_setup; cell_pull_data env; cell_save_csv; cell_upload env; cell_bigquery;
          cell_log_upload env; cell_cleanup env]
    with ([cell_setup; cell_pull_data env]
          ++ [cell_save_csv; cell_upload env; cell_bigquery;
              cell_log_upload env; cell_cleanup env]).
  rewrite run_cells_app, Hrun. cbn [run_cells]. unfold cell_save_csv at 1.
  rewrite Hr. apply Z.eqb_neq in Hs. rewrite Hs. cbn [negb].
  assert (Hlog : log_records (local st) = log_records (w_local w)).
  { rewrite Hl. apply log_records_basicConfig. }
  destruct (text_json r) as [body|] eqn:Hbody.
  - destruct (error_message body) as [msg|e] eqn:Hmsg.
    + exfalso. eapply Hno; eauto.
    + exists e, st. repeat split; try done.
  - exists ValueError, st. repeat split; try done.
Qed.

(** A gateway's HTML page under status 502. *)
Lemma error_answer_without_message_is_not_reported_witness :
  exists st,
    run_all (Sample.env_of (Returned Cases.bad_gateway) true) Sample.later_run
    = (Raised ValueError, st)
    /\ log_records (local st) = [].
Proof.
  destruct (error_answer_without_message_is_not_reported
              (Sample.env_of (Returned Cases.bad_gateway) true) Sample.later_run
              Cases.bad_gateway Sample.config
              (JStr "https://pro-api.coinmarketcap.com/v1/cryptocurrency/listings/latest")
              (JStr "secret"))
    as (e & st & Hrun & He & _ & Hl & _); try (vm_compute; reflexivity).
  { vm_compute. discriminate. }
  { intros body msg H. discriminate H. }
  rewrite (He eq_refl) in Hrun. exists st. split; [exact Hrun|].
  rewrite Hl. vm_compute. reflexivity.
Defined.

(** X7.  After a 200 answer whose body is not JSON, has no [data], or whose
    [data] is not a dict or a list of dicts, cell 6 raises before it writes:
    the run ends there, the CSV on the local disk is what it was before the
    run (none, or that of an earlier run), no schema is bound, and the
    bucket and the warehouse are untouched. *)
Theorem unusable_data_saves_no_csv env w r config uri key :
  w_bucket w !! config_key = Some (FJson config) ->
  config_lookup config "uri" = Ok uri ->
  config_lookup config "key" = Ok key ->
  http_get env = Returned r ->
  status_code r = 200%Z ->
  (forall body data df,
     text_json r = Some body -> getitem body "data" = Ok data ->
     flattener data = Ok df -> False) ->
  exists e st,
    run_all env w = (Raised e, st)
    /\ trace st = [ALog INFO script_start []; AGcsRead config_key; AHttpGet uri key;
                   ALog INFO step_1_complete []]
    /\ local st !! local_path = w_local w !! local_path
    /\ coin_data_schema st = None
    /\ bucket st = w_bucket w
    /\ warehouse st = w_warehouse w.
Proof.
  intros Hcfg Huri Hkey Hget Hs Hno.
  destruct (after_the_request _ _ _ _ _ _ Hcfg Huri Hkey Hget)
    as (st & Hrun & Hr & Hsch & Ht & Hl & Hb & Hw).
  unfold run_all, pipeline, steps. cbn [app].
  change [cell_setup; cell_pull_data env; cell_save_csv; cell_upload env; cell_bigquery;
          cell_log_upload env; cell_cleanup env]
    with ([cell_setup; cell_pull_data env]
          ++ [cell_save_csv; cell_upload env; cell_bigquery;
              cell_log_upload env; cell_cleanup env]).
  rewrite run_cells_app, Hrun. cbn [run_cells]. unfold cell_save_csv at 1.
  rewrite Hr, Hs. cbn [Z.eqb Pos.eqb negb].
  assert (Hcsv : local st !! local_path = w_local w !! local_path).
  { rewrite Hl. unfold logging_basicConfig. case_match; [reflexivity|].
    cbn [local set_local fresh_kernel]. rewrite lookup_insert_ne; [reflexivity|].
    intros E. symmetry in E. by apply names_differ in E. }
  destruct (text_json r) as [body|] eqn:Hbody.
  - destruct (getitem body "data") as [data|e] eqn:Hdata.
    + destruct (flattener data) as [df|e] eqn:Hdf.
      * exfalso. eapply Hno; eauto.
      * exists e, st. repeat split; try done.
    + exists e, st. repeat split; try done.
  - exists ValueError, st. repeat split; try done.
Qed.

(** A 200 answer whose [data] is the number 0. *)
Lemma unusable_data_saves_no_csv_witness :
  exists e st,
    run_all (Sample.env_of (Returned Cases.scalar_data) true) Sample.first_run
    = (Raised e, st)
    /\ local st !! local_path = None.
Proof.
  assert (Hcfg : w_bucket Sample.first_run !! config_key = Some (FJson Sample.config))
    by (vm_compute; reflexivity).
  assert (Huri : config_lookup Sample.config "uri"
                 = Ok (JStr "https://pro-api.coinmarketcap.com/v1/cryptocurrency/listings/latest"))
    by (vm_compute; reflexivity).
  assert (Hkey : config_lookup Sample.config "key" = Ok (JStr "secret"))
    by (vm_compute; reflexivity).
  assert (Hno : forall body data df,
            text_json Cases.scalar_data = Some body -> getitem body "data" = Ok data ->
            flattener data = Ok df -> False).
  { intros body data df Hbody Hdata Hdf. injection Hbody as <-.
    vm_compute in Hdata. injection Hdata as <-. discriminate Hdf. }
  destruct (unusable_data_saves_no_csv
              (Sample.env_of (Returned Cases.scalar_data) true) Sample.first_run
              Cases.scalar_data Sample.config _ _ Hcfg Huri Hkey eq_refl eq_refl Hno)
    as (e & st & Hrun & _ & Hl & _).
  exists e, st. split; [exact Hrun|]. rewrite Hl. reflexivity.
Defined.

(** *** The upload check, from what the cell starts with *)

(** X8.  Cell 8 from what it starts with.  It always ends normally.  It
    reports a failure (prints, writes the error record, calls [exit(1)])
    exactly when no object was in the bucket before the copy and the copy
    writes none (there is no local CSV, or the transfer fails); otherwise,
    when an object was there already or the copy gets through, it makes the
    step-3 call and leaves the log file alone.  An object left by an earlier
    run is enough to pass the check. *)
Theorem upload_check_fails_iff_nothing_is_there env st :
  let st' := (cell_upload env st).2 in
  (cell_upload env st).1 = Done
  /\ (last (trace st') = Some (AExit 1)
      <-> bucket st !! bucket_key = None
          /\ (local st !! local_path = None \/ cp_csv_ok env = false))
  /\ (last (trace st') = Some (ALog INFO step_3_complete [])
      <-> is_Some (bucket st !! bucket_key)
          \/ (is_Some (local st !! local_path) /\ cp_csv_ok env = true))
  /\ (last (trace st') = Some (AExit 1) ->
      log_records (local st') = log_records (local st) ++ [upload_failed])
  /\ (last (trace st') = Some (ALog INFO step_3_complete []) -> local st' = local st).
Proof.
  cbv zeta. unfold cell_upload, object_exists, gsutil_cp, kernel_exit, print. state_simpl.
  destruct (local st !! local_path) as [f|] eqn:Hf;
    [destruct (cp_csv_ok env) eqn:Hok|]; state_simpl;
    destruct (bucket st !! bucket_key) as [g|] eqn:Hg;
    rewrite ?lookup_insert_eq, ?Hg;
    rewrite ?bool_decide_eq_true_2 by (by eexists);
    rewrite ?bool_decide_eq_false_2 by (intros [? ?]; done);
    cbn [negb fst snd]; state_simpl; rewrite ?last_snoc, ?log_records_insert.
  all: repeat split; try done.
  all: try (intros [_ [?|?]]; done).
  all: try (intros [? _]; done).
  all: try (intros _; by left).
  all: try (intros _; left; by eexists).
  all: try (intros _; right; split; [by eexists|done]).
  all: try (intros [[? ?]|[_ ?]]; done).
  all: try (intros [[? ?]|[[? ?] _]]; done).
  all: try (intros _; split; [done|by right]).
  all: try (intros _; split; [done|by left]).
  all: first [by left|by right].
Qed.

(** *** What the cells leave alone *)

Lemma cell_pull_data_frame env st :
  local (cell_pull_data env st).2 = local st
  /\ bucket (cell_pull_data env st).2 = bucket st
  /\ warehouse (cell_pull_data env st).2 = warehouse st.
Proof. cell_cases; done. Qed.

Lemma cell_save_csv_frame st p :
  p <> local_path -> p <> log_file_name ->
  local (cell_save_csv st).2 !! p = local st !! p.
Proof.
  intros H1 H2. cell_cases; try done.
  all: by rewrite ?lookup_insert_ne by done.
Qed.

(** After a 200 answer cell 6 writes the CSV and nothing else. *)
Lemma cell_save_csv_200_frame st r p :
  response st = Some (Some r) -> status_code r = 200%Z ->
  p <> local_path ->
  local (cell_save_csv st).2 !! p = local st !! p.
Proof.
  intros Hr Hs Hp. unfold cell_save_csv. rewrite Hr, Hs. cbn [Z.eqb Pos.eqb negb].
  repeat case_match; state_simpl; try done.
  by rewrite lookup_insert_ne.
Qed.

(** Cell 8 writes to the local disk only when it logs the upload error. *)
Lemma cell_upload_frame env st p :
  p <> log_file_name ->
  local (cell_upload env st).2 !! p = local st !! p.
Proof. intros Hp. cell_cases; by rewrite ?lookup_insert_ne by done. Qed.

Lemma cell_upload_keeps_the_log env st :
  is_Some (local st !! log_file_name) ->
  is_Some (local (cell_upload env st).2 !! log_file_name).
Proof. intros H. cell_cases; rewrite ?lookup_insert_eq; try done; by eexists. Qed.

Lemma cell_bigquery_local st : local (cell_bigquery st).2 = local st.
Proof. cell_cases; done. Qed.

Lemma cell_bigquery_bucket st : bucket (cell_bigquery st).2 = bucket st.
Proof. cell_cases; done. Qed.

Lemma cell_cleanup_bucket env st : bucket (cell_cleanup env st).2 = bucket st.
Proof. cell_cases; done. Qed.


(** *** The log file and the bucket *)

(** Cells 2 to 10 neither copy the log nor write its object. *)
Lemma no_log_upload_before_cell_11 env w :
  Forall (fun c : cell => forall st,
            log_upload_ran st = false
            /\ bucket st !! log_bucket_key = w_bucket w !! log_bucket_key ->
            log_upload_ran (c st).2 = false
            /\ bucket (c st).2 !! log_bucket_key = w_bucket w !! log_bucket_key)
    (steps env).
Proof.
  unfold log_upload_ran.
  repeat apply Forall_cons_2; try apply Forall_nil_2; intros st [Ht Hb];
    cell_cases; rewrite ?existsb_snoc, ?Ht; split; try done.
  all: rewrite lookup_insert_ne; [done|apply names_differ].
Qed.

(** X9.  A run that does not end normally, that is, a run that an
    exception ends in cell 4 or cell 6, never copies the log: the log object
    in the bucket is what it was before the run. *)
Theorem stopped_run_ships_no_log env w :
  (run_all env w).1 <> Done ->
  log_upload_ran (run_all env w).2 = false
  /\ bucket (run_all env w).2 !! log_bucket_key = w_bucket w !! log_bucket_key.
Proof.
  unfold run_all, pipeline. rewrite run_cells_app.
  pose proof (run_cells_invariant _ _ (no_log_upload_before_cell_11 env w)
                (fresh_kernel w) (conj eq_refl eq_refl)) as Hinv.
  destruct (run_cells (steps env) (fresh_kernel w)) as [[|] st]; cbn [snd] in Hinv.
  - cbn [run_cells cell_log_upload cell_cleanup fst]. done.
  - intros _. exact Hinv.
Qed.

(** The connection is refused: cell 6 raises, and no log object is in the
    bucket after the run. *)
Lemma stopped_run_ships_no_log_witness :
  (run_all Sample.no_network Sample.later_run).1 = Raised AttributeError
  /\ bucket (run_all Sample.no_network Sample.later_run).2 !! log_bucket_key = None.
Proof.
  split; [vm_compute; reflexivity|].
  assert (H : (run_all Sample.no_network Sample.later_run).1 <> Done)
    by (vm_compute; discriminate).
  rewrite (proj2 (stopped_run_ships_no_log Sample.no_network Sample.later_run H)).
  reflexivity.
Defined.

(** X4.  The log object after a run that follows a 200 answer and ends
    normally, the copy of the log getting through.  When the upload check
    passed (the copy of the CSV got through, or an object was at the key
    before), it is the log file as it was before the run, or an empty file
    if there was none: such a run adds no line to its log.  When the check
    failed, it holds the records that were there before and, after them,
    the upload error. *)
Theorem log_object_after_a_200_run env w st r :
  run_all env w = (Done, st) ->
  http_get env = Returned r -> status_code r = 200%Z -> cp_log_ok env = true ->
  bucket st !! log_bucket_key
  = Some (if cp_csv_ok env || bool_decide (is_Some (w_bucket w !! bucket_key))
          then default (FLog []) (w_local w !! log_file_name)
          else FLog (log_records (w_local w) ++ [upload_failed])).
Proof.
  intros H Hget Hs Hok. unfold run_all, pipeline, steps in H. cbn [app] in H.
  pose proof (bucket_before_upload env w) as Hb.
  cbn [run_cells] in Hb.
  apply run_cells_cons_Done in H as (s1 & H1 & H). rewrite H1 in Hb.
  apply run_cells_cons_Done in H as (s2 & H2 & H). rewrite H2 in Hb.
  apply run_cells_cons_Done in H as (s3 & H3 & H). rewrite H3 in Hb. cbn [snd] in Hb.
  apply run_cells_cons_Done in H as (s4 & H4 & H).
  apply run_cells_cons_Done in H as (s5 & H5 & H).
  apply run_cells_cons_Done in H as (s6 & H6 & H).
  apply run_cells_cons_Done in H as (s7 & H7 & H). cbn in H. simplify_eq.
  set (f0 := default (FLog []) (w_local w !! log_file_name)).
  assert (L1 : local s1 !! log_file_name = Some f0).
  { unfold cell_setup in H1. injection H1 as <-. state_simpl. subst f0.
    unfold logging_basicConfig. cbn [fresh_kernel local].
    destruct (w_local w !! log_file_name) eqn:E; cbn [default local set_local].
    - exact E.
    - by rewrite lookup_insert_eq. }
  assert (L2 : local s2 !! log_file_name = Some f0).
  { destruct (cell_pull_data_frame env s1) as (E & _ & _).
    rewrite H2 in E. cbn [snd] in E. by rewrite E. }
  apply cell_pull_data_Done in H2. rewrite Hget in H2.
  assert (L3 : local s3 !! log_file_name = Some f0).
  { pose proof (cell_save_csv_200_frame s2 r log_file_name H2 Hs) as E.
    rewrite H3 in E. cbn [snd] in E. rewrite E; [exact L2|].
    intros E'. symmetry in E'. by apply names_differ in E'. }
  assert (R3 : log_records (local s3) = log_records (w_local w)).
  { unfold log_records. rewrite L3. subst f0.
    by destruct (w_local w !! log_file_name). }
  destruct (cell_save_csv_200 _ _ _ H3 H2 Hs)
    as (body & data & df & _ & _ & _ & Hcsv & _).
  assert (L4 : local s4 !! log_file_name
               = Some (if cp_csv_ok env
                          || bool_decide (is_Some (w_bucket w !! bucket_key))
                       then f0
                       else FLog (log_records (w_local w) ++ [upload_failed]))).
  { unfold cell_upload, object_exists, gsutil_cp in H4. state_simpl_in H4.
    rewrite Hcsv in H4.
    destruct (cp_csv_ok env); state_simpl_in H4.
    - rewrite lookup_insert_eq in H4.
      rewrite bool_decide_eq_true_2 in H4 by (by eexists).
      cbn [negb orb] in *. injection H4 as <-. state_simpl. exact L3.
    - rewrite Hb in H4. cbn [orb].
      destruct (bool_decide (is_Some (w_bucket w !! bucket_key))); cbn [negb] in H4;
        injection H4 as <-; unfold kernel_exit, print; state_simpl.
      + exact L3.
      + by rewrite lookup_insert_eq, R3. }
  assert (L5 : local s5 !! log_file_name = local s4 !! log_file_name).
  { pose proof (cell_bigquery_local s4) as E. rewrite H5 in E. cbn [snd] in E.
    by rewrite E. }
  pose proof (cell_cleanup_bucket env s6) as E7. rewrite H7 in E7. cbn [snd] in E7.
  rewrite E7. unfold cell_log_upload in H6. injection H6 as <-.
  unfold gsutil_cp. state_simpl. rewrite L5, L4, Hok. state_simpl.
  by rewrite lookup_insert_eq.
Qed.

(** A first run that goes through: the log object is empty, as the output
    kept in the notebook shows ([0.0 B]).  A first run whose copy of the CSV
    fails: the log object holds the upload error. *)
Lemma log_object_after_a_200_run_witness :
  bucket (run_all Sample.copy_works Sample.first_run).2 !! log_bucket_key
  = Some (FLog [])
  /\ bucket (run_all Cases.lost_copy Sample.first_run).2 !! log_bucket_key
     = Some (FLog [upload_failed]).
Proof.
  assert (H : run_all Sample.copy_works Sample.first_run
              = (Done, (run_all Sample.copy_works Sample.first_run).2))
    by (vm_compute; reflexivity).
  assert (H' : run_all Cases.lost_copy Sample.first_run
               = (Done, (run_all Cases.lost_copy Sample.first_run).2))
    by (vm_compute; reflexivity).
  split.
  - exact (log_object_after_a_200_run
             Sample.copy_works Sample.first_run _ Sample.ok_response
             H eq_refl eq_refl eq_refl).
  - exact (log_object_after_a_200_run
             Cases.lost_copy Sample.first_run _ Sample.ok_response
             H' eq_refl eq_refl eq_refl).
Defined.

(** *** A copy that fails over an old object *)

(** X10.  Let the API answer 200 and the copy of the CSV fail while the
    object of an earlier run is in the bucket.  If the run ends normally,
    the table has the schema of this run's frame and the data lines of the
    old object: cell 10 loads whatever is at [bucket_path].  (Whether the
    warehouse accepts these lines under that schema is not modelled.) *)
Theorem failed_copy_loads_the_old_object env w st r old :
  run_all env w = (Done, st) ->
  http_get env = Returned r -> status_code r = 200%Z ->
  cp_csv_ok env = false ->
  w_bucket w !! bucket_key = Some (FCsv old) ->
  exists body data df,
    text_json r = Some body /\ getitem body "data" = Ok data /\ flattener data = Ok df
    /\ table_of "cryptocurrency" "coin_data" (warehouse st)
       = Some {| tbl_schema := schema_from_data df; tbl_rows := drop 1 old |}.
Proof.
  intros H Hget Hs Hok Hold. unfold run_all, pipeline, steps in H. cbn [app] in H.
  pose proof (bucket_before_upload env w) as Hb.
  cbn [run_cells] in Hb.
  apply run_cells_cons_Done in H as (s1 & H1 & H). rewrite H1 in Hb.
  apply run_cells_cons_Done in H as (s2 & H2 & H). rewrite H2 in Hb.
  apply run_cells_cons_Done in H as (s3 & H3 & H). rewrite H3 in Hb. cbn [snd] in Hb.
  apply run_cells_cons_Done in H as (s4 & H4 & H).
  apply run_cells_cons_Done in H as (s5 & H5 & H).
  apply run_cells_cons_Done in H as (s6 & H6 & H).
  apply run_cells_cons_Done in H as (s7 & H7 & H). cbn in H. simplify_eq.
  apply cell_pull_data_Done in H2. rewrite Hget in H2.
  destruct (cell_save_csv_200 _ _ _ H3 H2 Hs)
    as (body & data & df & Hbody & Hdata & Hdf & Hcsv & Hschema & Hr).
  exists body, data, df. repeat split; try done.
  assert (Hobj : bucket s4 !! bucket_key = Some (FCsv old)).
  { unfold cell_upload, object_exists, gsutil_cp in H4. state_simpl_in H4.
    rewrite Hcsv, Hok in H4. state_simpl_in H4.
    rewrite bool_decide_eq_true_2 in H4 by (rewrite Hb, Hold; by eexists).
    cbn [negb] in H4. injection H4 as <-. state_simpl.
    by rewrite Hb. }
  destruct (cell_upload_variables env s3) as (E1 & E2 & _).
  rewrite H4 in E1, E2. cbn [snd] in E1, E2. rewrite Hr in E1. rewrite Hschema in E2.
  pose proof (cell_bigquery_200 _ _ _ _ _ H5 E1 Hs E2 Hobj) as Htable.
  destruct (after_cell_bigquery_warehouse env s5) as [W6 _].
  destruct (after_cell_bigquery_warehouse env s6) as [_ W7].
  rewrite H6 in W6. rewrite H7 in W7. cbn [snd] in W6, W7.
  rewrite W7, W6. exact Htable.
Qed.

(** The copy fails while the object of an earlier run is in the bucket:
    the table gets this run's schema and the old object's line. *)
Lemma failed_copy_loads_the_old_object_witness :
  exists df,
    flattener (JArr [JObj Sample.bitcoin; JObj Sample.tether]) = Ok df
    /\ table_of "cryptocurrency" "coin_data"
         (warehouse (run_all Sample.copy_fails Sample.later_run).2)
       = Some {| tbl_schema := schema_from_data df; tbl_rows := [Sample.old_line] |}.
Proof.
  assert (H : run_all Sample.copy_fails Sample.later_run
              = (Done, (run_all Sample.copy_fails Sample.later_run).2))
    by (vm_compute; reflexivity).
  assert (Hold : w_bucket Sample.later_run !! bucket_key
                 = Some (FCsv [[JStr "id"; JStr "name"]; Sample.old_line]))
    by (vm_compute; reflexivity).
  destruct (failed_copy_loads_the_old_object
              Sample.copy_fails Sample.later_run _ Sample.ok_response _
              H eq_refl eq_refl eq_refl Hold)
    as (body & data & df & Hbody & Hdata & Hdf & Htable).
  injection Hbody as <-. vm_compute in Hdata. injection Hdata as <-.
  exists df. split; [exact Hdf|exact Htable].
Defined.

(** *** How a run can end *)










(** *** What a run writes *)



(** *** The warehouse beside the table *)

Lemma table_of_dataset_create ds (wh : Warehouse) ds' tbl' :
  table_of ds' tbl' (dataset_create ds wh) = table_of ds' tbl' wh.
Proof.
  unfold dataset_create, table_of. destruct (wh !! ds) eqn:E; [reflexivity|].
  destruct (decide (ds' = ds)) as [->|Hne].
  - by rewrite lookup_insert_eq, E.
  - by rewrite lookup_insert_ne.
Qed.

Lemma table_of_table_create ds tbl schema b (wh wh' : Warehouse) ds' tbl' :
  table_create ds tbl schema b wh = Some wh' ->
  (ds', tbl') <> (ds, tbl) ->
  table_of ds' tbl' wh' = table_of ds' tbl' wh.
Proof.
  unfold table_create, table_of. intros H Hne.
  destruct (wh !! ds) as [tables|] eqn:E; [|discriminate].
  assert (Hother : ds' = ds -> tbl <> tbl') by (intros -> ->; by apply Hne).
  destruct (tables !! tbl) eqn:Et; [destruct b; [|discriminate]|];
    injection H as <-;
    (destruct (decide (ds' = ds)) as [->|Hds];
     [rewrite lookup_insert_eq, E, lookup_insert_ne by auto;
      rewrite ?lookup_delete_ne by auto; reflexivity
     |by rewrite lookup_insert_ne]).
Qed.

Lemma table_of_table_load ds tbl src mode n (wh : Warehouse) ds' tbl' :
  (ds', tbl') <> (ds, tbl) ->
  table_of ds' tbl' (table_load ds tbl src mode n wh) = table_of ds' tbl' wh.
Proof.
  intros Hne. unfold table_load, table_of.
  destruct src as [[lines| |]|]; try reflexivity.
  assert (Hother : ds' = ds -> tbl <> tbl') by (intros -> ->; by apply Hne).
  destruct (decide (ds' = ds)) as [->|Hds].
  - rewrite lookup_alter_eq. destruct (wh !! ds) as [tables|]; [|reflexivity].
    cbn. by rewrite lookup_alter_ne by auto.
  - by rewrite lookup_alter_ne.
Qed.

(** X20.  In the warehouse a run changes at most the table
    [cryptocurrency.coin_data]: every other table of that dataset, and every
    table of every other dataset, is after the run what it was before,
    however the run ends. *)
Theorem run_changes_only_the_coin_data_table env w ds tbl :
  (ds, tbl) <> ("cryptocurrency", "coin_data") ->
  table_of ds tbl (warehouse (run_all env w).2) = table_of ds tbl (w_warehouse w).
Proof.
  intros Hne.
  pose (I := fun st => table_of ds tbl (warehouse st) = table_of ds tbl (w_warehouse w)).
  enough (HI : I (run_all env w).2) by exact HI.
  unfold run_all. apply (run_cells_invariant I); [|reflexivity].
  unfold pipeline, steps, I. cbn [app].
  repeat apply Forall_cons_2; try apply Forall_nil_2;
    intros st HI; cell_cases; try exact HI.
  all: rewrite ?table_of_table_load by exact Hne.
  all: try (erewrite table_of_table_create by eassumption).
  all: state_simpl; by rewrite ?table_of_dataset_create.
Qed.

(** The refresh leaves the other table of the dataset, and the table of the
    same name in another dataset, as they were. *)
Lemma run_changes_only_the_coin_data_table_witness :
  table_of "cryptocurrency" "history"
    (warehouse (run_all Sample.copy_works Cases.shared_warehouse).2)
  = Some Cases.other_table
  /\ table_of "billing" "coin_data"
       (warehouse (run_all Sample.copy_works Cases.shared_warehouse).2)
     = Some Cases.other_table.
Proof.
  split.
  - rewrite (run_changes_only_the_coin_data_table Sample.copy_works
               Cases.shared_warehouse "cryptocurrency" "history")
      by discriminate.
    vm_compute. reflexivity.
  - rewrite (run_changes_only_the_coin_data_table Sample.copy_works
               Cases.shared_warehouse "billing" "coin_data")
      by discriminate.
    vm_compute. reflexivity.
Defined.

(** *** A cleanup shell without the names *)

(** X21.  The cleanup removes what the shell expands [$local_path] and
    [$log_file_name] to.  In a shell that has neither name both expand to
    nothing, and a run that ends normally removes nothing: the local disk is
    as the log upload left it, the log file is there, and after a 200 answer
    so is the CSV of this run. *)
Theorem cleanup_without_the_names_removes_nothing env w st :
  run_all env w = (Done, st) ->
  bash_env env "local_path" = "" -> bash_env env "log_file_name" = "" ->
  is_Some (local st !! log_file_name)
  /\ (forall r, http_get env = Returned r -> status_code r = 200%Z ->
        exists body data df,
          text_json r = Some body /\ getitem body "data" = Ok data
          /\ flattener data = Ok df
          /\ local st !! local_path = Some (FCsv (to_csv df)))
  /\ exists before,
       run_cells (steps env ++ [cell_log_upload env]) (fresh_kernel w) = (Done, before)
       /\ local st = local before.
Proof.
  intros H Hp Hl. unfold run_all, pipeline, steps in *. cbn [app] in *.
  apply run_cells_cons_Done in H as (s1 & H1 & H).
  apply run_cells_cons_Done in H as (s2 & H2 & H).
  apply run_cells_cons_Done in H as (s3 & H3 & H).
  apply run_cells_cons_Done in H as (s4 & H4 & H).
  apply run_cells_cons_Done in H as (s5 & H5 & H).
  apply run_cells_cons_Done in H as (s6 & H6 & H).
  apply run_cells_cons_Done in H as (s7 & H7 & H). cbn in H. simplify_eq.
  assert (E7 : local st = local s6).
  { unfold cell_cleanup, rm_f in H7. rewrite Hp, Hl in H7. cbn in H7.
    by injection H7 as <-. }
  assert (E6 : local s6 = local s5).
  { unfold cell_log_upload in H6. injection H6 as <-. apply gsutil_cp_frame. }
  assert (E5 : local s5 = local s4).
  { pose proof (cell_bigquery_local s4) as E. by rewrite H5 in E. }
  assert (E4 : forall p, p <> log_file_name -> local s4 !! p = local s3 !! p).
  { intros p Hne. pose proof (cell_upload_frame env s3 p Hne) as E. by rewrite H4 in E. }
  assert (K4 : is_Some (local s3 !! log_file_name) ->
               is_Some (local s4 !! log_file_name)).
  { intros Hs3. pose proof (cell_upload_keeps_the_log env s3 Hs3) as E.
    by rewrite H4 in E. }
  rewrite E7, E6, E5. split; [|split].
  - apply K4.
    assert (L1 : is_Some (local s1 !! log_file_name)).
    { unfold cell_setup in H1. injection H1 as <-. state_simpl.
      unfold logging_basicConfig. case_match; state_simpl; [by eexists|].
      rewrite lookup_insert_eq. by eexists. }
    assert (L2 : is_Some (local s2 !! log_file_name)).
    { destruct (cell_pull_data_frame env s1) as (E & _ & _).
      rewrite H2 in E. cbn [snd] in E. by rewrite E. }
    revert H3. unfold cell_save_csv. repeat case_match; intros; simplify_eq;
      state_simpl; rewrite ?logging_error_eq; state_simpl;
      rewrite ?lookup_insert_is_Some'; auto.
  - intros r Hget Hs. apply cell_pull_data_Done in H2. rewrite Hget in H2.
    destruct (cell_save_csv_200 _ _ _ H3 H2 Hs)
      as (body & data & df & Hbody & Hdata & Hdf & Hcsv & _).
    exists body, data, df. repeat split; try done.
    rewrite E4; [exact Hcsv|apply names_differ].
  - exists s6. split; [|by rewrite E6, E5].
    cbn [run_cells]. by rewrite H1, H2, H3, H4, H5, H6.
Qed.

(** A run that goes through, in a shell that has neither name: the CSV and
    the log file are still on the local disk. *)
Lemma cleanup_without_the_names_removes_nothing_witness :
  is_Some (local (run_all Cases.unexported Sample.first_run).2 !! log_file_name)
  /\ is_Some (local (run_all Cases.unexported Sample.first_run).2 !! local_path).
Proof.
  assert (H : run_all Cases.unexported Sample.first_run
              = (Done, (run_all Cases.unexported Sample.first_run).2))
    by (vm_compute; reflexivity).
  destruct (cleanup_without_the_names_removes_nothing
              Cases.unexported Sample.first_run _ H eq_refl eq_refl)
    as (Hlog & Hcsv & _).
  split; [exact Hlog|].
  destruct (Hcsv Sample.ok_response eq_refl eq_refl) as (_ & _ & df & _ & _ & _ & ->).
  by eexists.
Defined.

End Runs.

(** ** More on the flattener *)

Section MoreFlattener.

Lemma NoDup_add_keys ks : forall acc,
  NoDup acc -> NoDup (fold_left add_key ks acc).
Proof.
  induction ks as [|k ks IH]; intros acc Hacc; [exact Hacc|].
  cbn [fold_left]. apply IH. unfold add_key. case_bool_decide as Hk; [exact Hacc|].
  apply NoDup_app. split; [exact Hacc|]. split.
  - intros x Hx Hx'. apply list_elem_of_singleton in Hx'. by subst.
  - apply NoDup_singleton.
Qed.

Lemma NoDup_map_inj {A B} (f : A -> B) (l : list A) x y :
  NoDup (map f l) -> x ∈ l -> y ∈ l -> f x = f y -> x = y.
Proof.
  induction l as [|a l IH]; intros Hnd Hx Hy Hf; [by apply elem_of_nil in Hx|].
  cbn [map] in Hnd. apply NoDup_cons in Hnd as [Ha Hnd].
  apply elem_of_cons in Hx as [->|Hx]; apply elem_of_cons in Hy as [->|Hy].
  - reflexivity.
  - exfalso. apply Ha. rewrite Hf. apply list_elem_of_In, in_map.
    by apply list_elem_of_In.
  - exfalso. apply Ha. rewrite <- Hf. apply list_elem_of_In, in_map.
    by apply list_elem_of_In.
  - by apply IH.
Qed.

Lemma map_fst_imap {A B} (h : nat -> A -> B) (l : list A) :
  map fst (imap (fun j x => (x, h j x)) l) = l.
Proof.
  revert h. induction l as [|x l IH]; intros h; [reflexivity|].
  cbn [imap map fst]. f_equal. exact (IH (fun j => h (S j))).
Qed.

Lemma strip_sanitize x : PyStr.strip (sanitize x) = sanitize x.
Proof. unfold sanitize. by rewrite strip_replace, strip_strip. Qed.

Lemma flattener_Ok data df :
  flattener data = Ok df ->
  exists records,
    df = fillna (rename_columns (DataFrame_of_records records)).
Proof.
  unfold flattener, json_normalize. repeat case_match; intros; simplify_eq; by eexists.
Qed.

(** X13.  The frame that cell 6 saves, for any data it accepts.  No cell
    is [None] or NaN; every line of the CSV, the header included, has one
    cell per schema field; no column name contains a ['.'] or has white
    space at either end; and the schema names the fields as the header
    names the columns, in the same order. *)
Theorem saved_frame_is_well_formed data df :
  flattener data = Ok df ->
  (forall row v, row ∈ df_rows df -> v ∈ row -> isna v = false)
  /\ (forall line, line ∈ to_csv df -> length line = length (schema_from_data df))
  /\ (forall c, c ∈ df_columns df -> PyStr.contains "." c = false /\ PyStr.strip c = c)
  /\ map fst (schema_from_data df) = df_columns df.
Proof.
  intros H. apply flattener_Ok in H as [records ->].
  cbn [fillna rename_columns DataFrame_of_records convert_object_array
       df_rows df_columns to_csv].
  split; [|split; [|split]].
  - intros row v Hrow Hv.
    apply list_elem_of_In, in_map_iff in Hrow as (row' & <- & _).
    apply list_elem_of_In, in_map_iff in Hv as (v' & <- & _).
    destruct (isna v') eqn:E; [reflexivity|exact E].
  - intros line Hline. unfold schema_from_data. rewrite length_imap.
    cbn [fillna rename_columns DataFrame_of_records convert_object_array df_columns].
    apply elem_of_cons in Hline as [->|Hline].
    + by rewrite length_map.
    + apply list_elem_of_In, in_map_iff in Hline as (row' & <- & Hrow).
      apply in_map_iff in Hrow as (raw & <- & Hraw).
      apply in_map_iff in Hraw as (r & <- & _).
      unfold make_row. by rewrite length_map, length_imap, !length_map.
  - intros c Hc. apply list_elem_of_In, in_map_iff in Hc as (p & <- & _).
    split; [unfold sanitize; apply replace_has_no_dot|apply strip_sanitize].
  - unfold schema_from_data.
    cbn [fillna rename_columns DataFrame_of_records convert_object_array df_columns].
    apply map_fst_imap.
Qed.

(** The frame of the sample answer. *)
Lemma saved_frame_is_well_formed_witness :
  exists df,
    flattener (JArr [JObj Sample.bitcoin; JObj Sample.tether]) = Ok df
    /\ map fst (schema_from_data df) = df_columns df.
Proof.
  destruct (flattener (JArr [JObj Sample.bitcoin; JObj Sample.tether])) as [df|e] eqn:H;
    [|vm_compute in H; discriminate H].
  exists df. split; [reflexivity|].
  exact (proj2 (proj2 (proj2 (saved_frame_is_well_formed _ df H)))).
Defined.

(** X14.  The renaming does not keep names apart.  [json_normalize] gives
    distinct column names, but two of them that [strip] and [replace] send
    to the same name leave the frame, and with it the CSV header and the
    schema, with a repeated name. *)
Theorem renaming_can_repeat_a_column_name
    (objs : list (list (string * json))) (df : DataFrame) (p q : string) :
  flattener (JArr (map JObj objs)) = Ok df ->
  p ∈ column_universe (map nested_to_record objs) ->
  q ∈ column_universe (map nested_to_record objs) ->
  p <> q -> sanitize p = sanitize q ->
  NoDup (column_universe (map nested_to_record objs))
  /\ ~ NoDup (df_columns df)
  /\ ~ NoDup (map fst (schema_from_data df)).
Proof.
  rewrite flattener_dicts. intros [= <-] Hp Hq Hne Heq.
  assert (Hdup : ~ NoDup (map sanitize (column_universe (map nested_to_record objs)))).
  { intros Hnd. apply Hne. by eapply NoDup_map_inj. }
  split; [apply NoDup_add_keys, NoDup_nil_2|].
  split; [exact Hdup|].
  unfold schema_from_data. by rewrite map_fst_imap.
Qed.

(** A record with the key [quote_USD] and the nested path [quote.USD]. *)
Lemma renaming_can_repeat_a_column_name_witness :
  exists df,
    flattener (JArr (map JObj [Cases.clash])) = Ok df
    /\ df_columns df = ["quote_USD"; "quote_USD"]
    /\ ~ NoDup (df_columns df).
Proof.
  destruct (flattener (JArr (map JObj [Cases.clash]))) as [df|e] eqn:H;
    [|vm_compute in H; discriminate H].
  exists df. split; [reflexivity|]. split.
  - vm_compute in H. injection H as <-. reflexivity.
  - refine (proj1 (proj2 (renaming_can_repeat_a_column_name
                            [Cases.clash] df "quote_USD" "quote.USD" H _ _ _ _))).
    + vm_compute. repeat constructor.
    + vm_compute. repeat constructor.
    + discriminate.
    + vm_compute. reflexivity.
Defined.

Lemma forallb_elem_false {A} (f : A -> bool) (l : list A) x :
  x ∈ l -> f x = false -> forallb f l = false.
Proof.
  intros Hx Hf. destruct (forallb f l) eqn:E; [|reflexivity].
  rewrite forallb_forall in E. rewrite <- Hf. symmetry. apply E. by apply list_elem_of_In.
Qed.

(** X15.  A column in which some row holds a string is typed STRING.  This
    is so for the empty string that [fillna] writes into a gap: a column of
    numbers that one record lacks goes to the warehouse as STRING. *)
Theorem column_with_a_string_is_typed_STRING
    (data : json) (df : DataFrame) (row : list json) (j : nat) (s : string) :
  flattener data = Ok df ->
  row ∈ df_rows df -> row !! j = Some (JStr s) ->
  exists c, df_columns df !! j = Some c
            /\ schema_from_data df !! j = Some (c, STRING).
Proof.
  intros H Hrow Hj.
  assert (Hlen : j < length (df_columns df)).
  { apply flattener_Ok in H as [records ->].
    cbn [fillna rename_columns DataFrame_of_records convert_object_array
         df_rows df_columns] in *.
    apply list_elem_of_In, in_map_iff in Hrow as (row' & <- & Hrow).
    apply in_map_iff in Hrow as (raw & <- & Hraw).
    apply in_map_iff in Hraw as (r & <- & _).
    apply lookup_lt_Some in Hj. unfold make_row in Hj.
    by rewrite length_map, length_imap, !length_map in *. }
  destruct (lookup_lt_is_Some_2 _ _ Hlen) as [c Hc].
  exists c. split; [exact Hc|].
  unfold schema_from_data, Schema. rewrite list_lookup_imap, Hc. cbn. do 2 f_equal.
  assert (Hin : JStr s ∈ column_values df j).
  { unfold column_values. apply list_elem_of_In, in_flat_map.
    exists row. split; [by apply list_elem_of_In|]. rewrite Hj. by left. }
  unfold dtype_kind.
  rewrite (forallb_elem_false is_int _ _ Hin eq_refl),
    (forallb_elem_false is_bool _ _ Hin eq_refl),
    (forallb_elem_false is_float _ _ Hin eq_refl).
  reflexivity.
Qed.

(** Tether has no [max_supply]: the column of Bitcoin's 21000000 is typed
    STRING. *)
Lemma column_with_a_string_is_typed_STRING_witness :
  exists df,
    flattener (JArr [JObj Sample.bitcoin; JObj Sample.tether]) = Ok df
    /\ schema_from_data df !! 4 = Some ("max_supply", STRING).
Proof.
  destruct (flattener (JArr [JObj Sample.bitcoin; JObj Sample.tether])) as [df|e] eqn:H;
    [|vm_compute in H; discriminate H].
  exists df. split; [reflexivity|].
  assert (Hrows : exists row, df_rows df !! 1 = Some row /\ row !! 4 = Some (JStr "")).
  { vm_compute in H. injection H as <-. eexists. split; reflexivity. }
  destruct Hrows as (row & Hrow & Hj).
  destruct (column_with_a_string_is_typed_STRING _ df row 4 "" H
              (list_elem_of_lookup_2 _ _ _ Hrow) Hj) as (c & Hc & Hs).
  assert (Hname : df_columns df !! 4 = Some "max_supply").
  { vm_compute in H. injection H as <-. reflexivity. }
  rewrite Hname in Hc. injection Hc as <-. exact Hs.
Defined.





End MoreFlattener.

(** ** Query 5 *)

Section Query5.

Lemma upper_char_X c :
  Ascii.eqb (upper_char c) "X" = Ascii.eqb c "x" || Ascii.eqb c "X".
Proof. destruct c as [[] [] [] [] [] [] [] []]; reflexivity. Qed.

Lemma contains_upper_X s :
  PyStr.contains "X" (upper s) = PyStr.contains "x" s || PyStr.contains "X" s.
Proof.
  induction s as [|c s IH]; [reflexivity|].
  cbn [upper PyStr.contains]. rewrite IH, upper_char_X.
  destruct (Ascii.eqb c "x"), (Ascii.eqb c "X"),
    (PyStr.contains "x" s), (PyStr.contains "X" s); reflexivity.
Qed.

Lemma like_percent pat s :
  like (String "%" pat) s
  = like pat s || match s with
                  | EmptyString => false
                  | String _ s' => like (String "%" pat) s'
                  end.
Proof. destruct s; reflexivity. Qed.

Lemma like_literal p pat s :
  Ascii.eqb p "%" = false ->
  like (String p pat) s
  = match s with
    | EmptyString => false
    | String c s' => (Ascii.eqb p "_" || Ascii.eqb p c) && like pat s'
    end.
Proof. intros H. destruct s; cbn [like]; rewrite H; reflexivity. Qed.

Lemma like_percent_only s : like "%" s = true.
Proof.
  induction s as [|c s IH]; [reflexivity|].
  rewrite like_percent, IH. apply orb_true_r.
Qed.

(** ['%c%'] asks for a [c] somewhere. *)
Lemma like_contains (c : ascii) s :
  Ascii.eqb c "%" = false -> Ascii.eqb c "_" = false ->
  like (String "%" (String c "%")) s = PyStr.contains c s.
Proof.
  intros H1 H2. induction s as [|a s IH]; rewrite like_percent, like_literal by done.
  - reflexivity.
  - rewrite IH. cbn [PyStr.contains].
    rewrite H2, like_percent_only, andb_true_r, Ascii.eqb_sym. reflexivity.
Qed.

Lemma x_in_symbol_count (t : list CoinData.row) :
  x_in_symbol t = length (List.filter has_x t).
Proof.
  unfold x_in_symbol, sql_count_star, sql_where. f_equal.
  apply List.filter_ext. intros r. unfold has_x, sql_like, sql_upper.
  destruct (CoinData.symbol r) as [s|]; [|reflexivity].
  cbn [option_map]. rewrite (like_contains "X") by reflexivity.
  rewrite contains_upper_X.
  by destruct (PyStr.contains "x" s || PyStr.contains "X" s).
Qed.

(** X16.  Query 5, over ASCII symbols: the result is the number of rows
    whose symbol is not NULL and contains an [x], small or capital.  The
    query counts rows, not names, so a row without a name is counted; a row
    whose symbol is NULL is not. *)
Theorem x_in_symbol_counts_symbols_with_an_x (t : list CoinData.row) :
  (forall r s, r ∈ t -> CoinData.symbol r = Some s -> is_ascii s = true) ->
  x_in_symbol t = length (List.filter has_x t)
  /\ (forall r, r ∈ t -> CoinData.symbol r = None -> has_x r = false).
Proof.
  intros _. split; [apply x_in_symbol_count|].
  intros r _ H. unfold has_x. by rewrite H.
Qed.

(** XRP and the small-letter [xlm] are counted, the other six rows are not. *)
Lemma x_in_symbol_counts_symbols_with_an_x_witness :
  x_in_symbol Market.table = 2.
Proof.
  assert (H : forall r s, r ∈ Market.table -> CoinData.symbol r = Some s ->
                          is_ascii s = true).
  { intros r s Hr Hs.
    repeat (apply elem_of_cons in Hr as [->|Hr];
            [first [discriminate Hs|injection Hs as <-; reflexivity]|]).
    by apply elem_of_nil in Hr. }
  rewrite (proj1 (x_in_symbol_counts_symbols_with_an_x Market.table H)).
  reflexivity.
Defined.

End Query5.

(** ** [order by] and [limit] *)

Section OrderByFacts.

Context {A K : Type} (le : K -> K -> bool) (key : A -> K).
Hypothesis le_total : forall a b, le a b = true \/ le b a = true.
Hypothesis le_trans : forall a b c, le a b = true -> le b c = true -> le a c = true.

Local Notation before := (fun a b => le (key a) (key b) = true).

Lemma insert_row_perm a l : insert_row le key a l ≡ₚ a :: l.
Proof.
  induction l as [|b l IH]; [reflexivity|]. cbn [insert_row].
  destruct (le (key a) (key b)); [reflexivity|].
  rewrite IH. apply Permutation_swap.
Qed.

Lemma insert_row_sorted a l :
  StronglySorted before l -> StronglySorted before (insert_row le key a l).
Proof.
  induction 1 as [|b l Hl IH Hb]; cbn [insert_row].
  - repeat constructor.
  - destruct (le (key a) (key b)) eqn:E.
    + constructor; [by constructor|]. constructor; [exact E|].
      eapply Forall_impl; [exact Hb|]. intros c Hc. cbn in *. by eapply le_trans.
    + constructor; [exact IH|]. rewrite insert_row_perm. constructor; [|exact Hb].
      destruct (le_total (key a) (key b)) as [H|H]; [congruence|exact H].
Qed.

Lemma sql_order_by_ordered t : ordered_by le key t (sql_order_by le key t).
Proof.
  split.
  - induction t as [|a t IH]; [reflexivity|].
    cbn [sql_order_by foldr]. rewrite insert_row_perm. by constructor.
  - induction t as [|a t IH]; [constructor|].
    cbn [sql_order_by foldr]. by apply insert_row_sorted.
Qed.

(** The first [n] rows of an ordered table and the rows after them. *)
Lemma limit_of_ordered t out n :
  ordered_by le key t out ->
  sql_limit n out ++ drop n out ≡ₚ t
  /\ length (sql_limit n out) = Nat.min n (length t)
  /\ StronglySorted before (sql_limit n out)
  /\ forall a b, a ∈ sql_limit n out -> b ∈ drop n out -> le (key a) (key b) = true.
Proof.
  intros [Hperm Hsorted]. unfold sql_limit.
  rewrite <- (take_drop n out) in Hsorted.
  apply StronglySorted_app in Hsorted as (Hcross & Htake & _).
  rewrite take_drop, length_take, (Permutation_length Hperm). done.
Qed.

(** Where no two different rows tie, the order is the only one. *)
Lemma ordered_by_unique t out1 out2 :
  (forall a b, a ∈ t -> b ∈ t -> tied le key a b -> a = b) ->
  ordered_by le key t out1 -> ordered_by le key t out2 -> out1 = out2.
Proof.
  intros Hties [P1 S1] [P2 S2].
  apply (StronglySorted_unique_strong before); try done.
  - intros a b Ha Hb Hab Hba. apply Hties; [by rewrite <- P1|by rewrite <- P2|done].
  - by rewrite P1, P2.
Qed.

Lemma sql_order_by_respects_permutations t t' :
  t ≡ₚ t' ->
  (forall a b, a ∈ t -> b ∈ t -> tied le key a b -> a = b) ->
  sql_order_by le key t = sql_order_by le key t'.
Proof.
  intros Hperm Hties. apply (ordered_by_unique t); [exact Hties|..].
  - apply sql_order_by_ordered.
  - destruct (sql_order_by_ordered t') as [P S]. split; [by rewrite P|exact S].
Qed.

End OrderByFacts.

(** ** The orders of the two sorted columns *)

Section ColumnOrders.

Import SpecFloat.

Lemma SFleb_total a b :
  a <> S754_nan -> b <> S754_nan -> SFleb a b = true \/ SFleb b a = true.
Proof.
  intros Ha Hb. unfold SFleb, SFcompare.
  destruct a as [[]|[]| |[] m1 e1], b as [[]|[]| |[] m2 e2]; try done; auto.
  all: change (Pos.compare_cont Eq ?x ?y) with (Pos.compare x y).
  all: destruct (Z.compare_spec e1 e2), (Z.compare_spec e2 e1); try lia; auto.
  all: destruct (Pos.compare_spec m1 m2), (Pos.compare_spec m2 m1); try lia; auto.
Qed.

Lemma SFleb_trans a b c :
  SFleb a b = true -> SFleb b c = true -> SFleb a c = true.
Proof.
  unfold SFleb, SFcompare.
  destruct a as [[]|[]| |[] m1 e1], b as [[]|[]| |[] m2 e2], c as [[]|[]| |[] m3 e3];
    try done.
  all: change (Pos.compare_cont Eq ?x ?y) with (Pos.compare x y).
  all: destruct (Z.compare_spec e1 e2), (Z.compare_spec e2 e3), (Z.compare_spec e1 e3);
    try lia; try done; subst.
  all: destruct (Pos.compare_spec m1 m2), (Pos.compare_spec m2 m3),
         (Pos.compare_spec m1 m3); try lia; try done.
Qed.

Lemma is_nan_Prim2SF x : PrimFloat.is_nan x = false -> Prim2SF x <> S754_nan.
Proof.
  unfold PrimFloat.is_nan. rewrite FloatAxioms.eqb_spec. intros H E. rewrite E in H. discriminate H.
Qed.

Lemma float64_le_total a b : float64_le a b = true \/ float64_le b a = true.
Proof.
  destruct a as [x|], b as [y|]; cbn; auto.
  destruct (PrimFloat.is_nan x) eqn:Hx; [by left|].
  destruct (PrimFloat.is_nan y) eqn:Hy; [by right|].
  rewrite !FloatAxioms.leb_spec. apply SFleb_total; by apply is_nan_Prim2SF.
Qed.

Lemma float64_le_trans a b c :
  float64_le a b = true -> float64_le b c = true -> float64_le a c = true.
Proof.
  destruct a as [x|], b as [y|], c as [z|]; cbn; try done.
  destruct (PrimFloat.is_nan x) eqn:Hx; [done|].
  destruct (PrimFloat.is_nan y) eqn:Hy; [done|].
  destruct (PrimFloat.is_nan z) eqn:Hz; [done|].
  rewrite !FloatAxioms.leb_spec. apply SFleb_trans.
Qed.

Lemma int64_le_total a b : int64_le a b = true \/ int64_le b a = true.
Proof. destruct a, b; cbn; auto. lia. Qed.

Lemma int64_le_trans a b c :
  int64_le a b = true -> int64_le b c = true -> int64_le a c = true.
Proof. destruct a, b, c; cbn; try done. lia. Qed.

End ColumnOrders.

(** ** Queries 4 and 2 *)

Section Queries4And2.

Import CoinData.

Lemma sql_sum_map {A} (e : A -> option float) (l : list A) :
  sql_sum (fun v => v) (map e l) = sql_sum e l.
Proof.
  unfold sql_sum. generalize (@None float).
  induction l as [|a l IH]; intros acc; [reflexivity|]. cbn [map fold_left]. apply IH.
Qed.

Lemma sql_sum_of_nulls {A} (e : A -> option float) (l : list A) :
  (forall r, r ∈ l -> e r = None) -> sql_sum e l = None.
Proof.
  intros H. unfold sql_sum. generalize (@None float) at 1 2. intros acc.
  induction l as [|a l IH]; [reflexivity|].
  cbn [fold_left]. rewrite (H a) by left. apply IH. intros r Hr. apply H. by right.
Qed.

(** X17.  Query 4 returns the names of five rows (of all rows, when the
    table has fewer) in descending order of the 7-day change, and no row
    left out is above a row returned.  NULL and NaN are below every number:
    when a row without a change is returned, no row left out has one, and a
    row left out whose change is a number is at most every change returned,
    all of which are numbers then. *)
Theorem highest_growth_week_returns_the_top_5 (t : list row) :
  exists picked rest,
    highest_growth_week t = map name picked
    /\ picked ++ rest ≡ₚ t
    /\ length picked = Nat.min 5 (length t)
    /\ StronglySorted
         (fun a b => float64_le (quote_USD_percent_change_7d b)
                       (quote_USD_percent_change_7d a) = true) picked
    /\ (forall a b, a ∈ picked -> b ∈ rest ->
          float64_le (quote_USD_percent_change_7d b) (quote_USD_percent_change_7d a) = true)
    /\ (forall a b, a ∈ picked -> b ∈ rest ->
          quote_USD_percent_change_7d a = None -> quote_USD_percent_change_7d b = None)
    /\ (forall a b x y, a ∈ picked -> b ∈ rest ->
          quote_USD_percent_change_7d a = Some x ->
          quote_USD_percent_change_7d b = Some y ->
          PrimFloat.is_nan y = false ->
          PrimFloat.is_nan x = false /\ PrimFloat.leb y x = true).
Proof.
  pose proof (sql_order_by_ordered (desc float64_le) quote_USD_percent_change_7d
                (fun a b => float64_le_total b a)
                (fun a b c H1 H2 => float64_le_trans c b a H2 H1) t) as Hord.
  destruct (limit_of_ordered _ _ _ _ 5 Hord) as (Hperm & Hlen & Hsorted & Hcross).
  eexists _, _. split; [reflexivity|]. split; [exact Hperm|]. split; [exact Hlen|].
  unfold desc in Hcross, Hsorted. split; [exact Hsorted|]. split; [exact Hcross|]. split.
  - intros a b Ha Hb Hnull. specialize (Hcross a b Ha Hb). rewrite Hnull in Hcross.
    by destruct (quote_USD_percent_change_7d b).
  - intros a b x y Ha Hb Hx Hy Hnan. specialize (Hcross a b Ha Hb).
    rewrite Hx, Hy in Hcross. cbn in Hcross. rewrite Hnan in Hcross.
    by destruct (PrimFloat.is_nan x).
Qed.

(** X18.  Query 2 adds up, in order of rank, the market caps of one
    hundred rows (of all rows, when the table has fewer) such that no row
    left out ranks before a row taken.  A NULL rank is before every rank, so
    rows without a rank are taken first.  NULL caps are skipped, and when
    every row taken has a NULL cap the result is NULL, not zero. *)
Theorem top_100_sums_the_100_least_ranks (t : list row) :
  exists picked rest,
    top_100 t = sql_sum quote_USD_market_cap picked
    /\ picked ++ rest ≡ₚ t
    /\ length picked = Nat.min 100 (length t)
    /\ StronglySorted (fun a b => int64_le (cmc_rank a) (cmc_rank b) = true) picked
    /\ (forall a b, a ∈ picked -> b ∈ rest -> int64_le (cmc_rank a) (cmc_rank b) = true)
    /\ (forall a b, a ∈ picked -> b ∈ rest -> cmc_rank b = None -> cmc_rank a = None)
    /\ ((forall r, r ∈ picked -> quote_USD_market_cap r = None) -> top_100 t = None).
Proof.
  pose proof (sql_order_by_ordered int64_le cmc_rank int64_le_total int64_le_trans t)
    as Hord.
  destruct (limit_of_ordered _ _ _ _ 100 Hord) as (Hperm & Hlen & Hsorted & Hcross).
  eexists _, _. split; [apply sql_sum_map|]. split; [exact Hperm|].
  split; [exact Hlen|]. split; [exact Hsorted|]. split; [exact Hcross|]. split.
  - intros a b Ha Hb Hnull. specialize (Hcross a b Ha Hb). rewrite Hnull in Hcross.
    by destruct (cmc_rank a).
  - intros Hnulls. unfold top_100. cbv zeta. rewrite sql_sum_map.
    by apply sql_sum_of_nulls.
Qed.

(** X19.  Where no two different rows tie on the sorted column, queries 4
    and 2 do not depend on the order in which the table holds its rows.
    (Among rows that tie the warehouse promises no order.) *)
Theorem ordered_queries_without_ties (t t' : list row) :
  t ≡ₚ t' ->
  ((forall a b, a ∈ t -> b ∈ t ->
      tied float64_le quote_USD_percent_change_7d a b -> a = b) ->
   highest_growth_week t = highest_growth_week t')
  /\ ((forall a b, a ∈ t -> b ∈ t -> tied int64_le cmc_rank a b -> a = b) ->
      top_100 t = top_100 t').
Proof.
  intros Hperm. split; intros Hties.
  - unfold highest_growth_week. do 2 f_equal.
    apply (sql_order_by_respects_permutations (desc float64_le) _
             (fun a b => float64_le_total b a)
             (fun a b c H1 H2 => float64_le_trans c b a H2 H1) _ _ Hperm).
    intros a b Ha Hb [H1 H2]. apply Hties; [exact Ha|exact Hb|]. split; assumption.
  - unfold top_100. cbv zeta. do 3 f_equal.
    exact (sql_order_by_respects_permutations int64_le _
             int64_le_total int64_le_trans _ _ Hperm Hties).
Qed.

(** The sample table read backwards: no two of its rows tie on the change
    or on the rank, so both queries give what they give on the table. *)
Lemma ordered_queries_without_ties_witness :
  highest_growth_week Market.table = highest_growth_week (rev Market.table)
  /\ top_100 Market.table = top_100 (rev Market.table)
  /\ highest_growth_week Market.table
     = [Some "Dogecoin"; Some "Stellar"; Some "Ethereum"; Some "Bitcoin"; Some "Cardano"].
Proof.
  destruct (ordered_queries_without_ties Market.table (rev Market.table)
              (Permutation_rev _)) as [H4 H2].
  split; [|split; [|vm_compute; reflexivity]].
  - apply H4. intros a b Ha Hb [H1 H2'].
    repeat (apply elem_of_cons in Ha as [->|Ha]);
      try (by apply elem_of_nil in Ha);
      repeat (apply elem_of_cons in Hb as [->|Hb]);
      try (by apply elem_of_nil in Hb);
      try reflexivity;
      first [vm_compute in H1; discriminate H1|vm_compute in H2'; discriminate H2'].
  - apply H2. intros a b Ha Hb [H1 H2'].
    repeat (apply elem_of_cons in Ha as [->|Ha]);
      try (by apply elem_of_nil in Ha);
      repeat (apply elem_of_cons in Hb as [->|Hb]);
      try (by apply elem_of_nil in Hb);
      try reflexivity;
      first [vm_compute in H1; discriminate H1|vm_compute in H2'; discriminate H2'].
Defined.

End Queries4And2.
